(** * The lifecycle of the Virtual MCP composition demo (demo.py)

    A shallow embedding of the process and session lifecycle of demo.py:
    the prerequisite check, the readiness poll, the exit stack holding the
    transport and the client session, the tool call, the decoding of its
    reply, teardown, detach and the signal handlers.

    Python state is threaded explicitly: the three module globals
    ([vmcp_process], [mcp_session], [exit_stack]) live in a [World]; every
    function is a computation that returns a value or raises, together with
    the world it leaves behind and the external effects it performed, in
    order.  What the environment decides (which binaries exist, what the
    health endpoint answers, whether the server honours SIGTERM, what the
    operator types) is read from an [Env].

    Banners, tables, trees and progress bars are not modelled; the console
    lines of the lifecycle functions are, without the blank lines around
    them and without the values formatted into them (pids, durations,
    captured output). *)

From Stdlib Require Import String Ascii List ZArith NArith Bool Arith Lia.
Import ListNotations.
Open Scope string_scope.
Open Scope list_scope.
Set Warnings "-register-all".

(** ** Exceptions *)

(** The exception classes demo.py distinguishes in its [except] clauses,
    and those [json.loads] raises.  The clauses that name a class name
    [TimeoutExpired], [CalledProcessError], [RequestError] and
    [JSONDecodeError]; none of the other classes below derives from one of
    these, so a clause catches exactly the class it names. *)
Inductive ExcClass : Type :=
| RuntimeError
| AttributeError
| TimeoutExpired
| CalledProcessError
| RequestError
| JSONDecodeError
| ValueError
| RecursionError
| OtherException.

(** What can be raised.  [SystemExit] is what [sys.exit] raises and
    [CancelledError] is [asyncio.CancelledError]: both derive from
    [BaseException] and not from [Exception], so [except Exception] catches
    neither. *)
Inductive exn : Type :=
| Exc (cls : ExcClass) (msg : string)
| SystemExit (code : Z)
| CancelledError.

Definition is_Exception (e : exn) : bool :=
  match e with
  | Exc _ _ => true
  | SystemExit _ | CancelledError => false
  end.

Definition is_class (c : ExcClass) (e : exn) : bool :=
  match e, c with
  | Exc RuntimeError _, RuntimeError => true
  | Exc AttributeError _, AttributeError => true
  | Exc TimeoutExpired _, TimeoutExpired => true
  | Exc CalledProcessError _, CalledProcessError => true
  | Exc RequestError _, RequestError => true
  | Exc JSONDecodeError _, JSONDecodeError => true
  | Exc ValueError _, ValueError => true
  | Exc RecursionError _, RecursionError => true
  | Exc OtherException _, OtherException => true
  | _, _ => false
  end.

Definition str (e : exn) : string :=
  match e with
  | Exc _ msg => msg
  | SystemExit _ | CancelledError => ""
  end.

(** ** Data *)

(** JSON values as [json.loads] produces them. *)
Inductive Json : Type :=
| JNull
| JBool (b : bool)
| JNum (n : Z)
| JStr (s : string)
| JList (items : list Json)
| JDict (fields : list (string * Json)).

(** A content block of a tool reply: [types.TextContent] or anything else. *)
Inductive ContentBlock : Type :=
| TextContent (text : string)
| OtherContent.

(** The dict [execute_composite_tool] returns. *)
Record ToolResult : Type := mkToolResult {
  content : list ContentBlock;
  isError : bool
}.

(** What [ClientSession.call_tool] does: it returns a reply (whose [isError]
    attribute may be missing), raises an [Exception], or is cancelled while
    it waits for the answer and raises [asyncio.CancelledError]. *)
Inductive ToolReply : Type :=
| Reply (blocks : list ContentBlock) (is_error : option bool)
| Fault (msg : string)
| Cancelled.

(** What [json.loads] does with a [str]: it returns the decoded value or
    raises.  It raises [JSONDecodeError] for a text that is not JSON, but
    also [RecursionError] for a text nested too deeply and [ValueError] for
    an integer literal beyond the interpreter's digit limit. *)
Inductive Loads : Type :=
| Loaded (value : Json)
| LoadsRaises (cls : ExcClass) (msg : string).

(** One GET on the health endpoint. *)
Inductive ProbeResult : Type :=
| Status (code : Z)
| ProbeRequestError
| ProbeOtherError.

(** The context managers entered on the exit stack. *)
Inductive Resource : Type :=
| Transport
| Session.

Inductive ProcStatus : Type :=
| Running
| Terminating
| Stopped.

(** The [subprocess.Popen] handle of the server. *)
Record Popen : Type := mkPopen {
  pid : Z;
  status : ProcStatus
}.

Record ClientSession : Type := mkClientSession {
  initialized : bool;
  closed : bool
}.

Inductive Signal : Type :=
| SIGTERM
| SIGKILL.

Inductive Disposition : Type :=
| Inherited
| CleanupHandler
| SIG_DFL.

(** External effects, in the order the program performs them. *)
Inductive Event : Type :=
| Print (msg : string)
| Input
| Sleep
| Run (argv : list string)
| Spawn (argv : list string)
| Probe
| Enter (r : Resource)
| Release (r : Resource)
| Initialize
| CallTool (name : string) (params : list (string * Json))
| Terminate
| Wait (timeout : N)
| Kill
| Sent (s : Signal)
| Render (title : string) (data : Json).

(** The module globals and the interpreter state the lifecycle depends on. *)
Record World : Type := mkWorld {
  vmcp_process : option Popen;
  mcp_session : option ClientSession;
  exit_stack : option (list Resource);
  loop_running : bool;
  handlers : Disposition
}.

Definition set_vmcp_process (p : option Popen) (w : World) : World :=
  mkWorld p (mcp_session w) (exit_stack w) (loop_running w) (handlers w).

Definition set_mcp_session (s : option ClientSession) (w : World) : World :=
  mkWorld (vmcp_process w) s (exit_stack w) (loop_running w) (handlers w).

Definition set_exit_stack (s : option (list Resource)) (w : World) : World :=
  mkWorld (vmcp_process w) (mcp_session w) s (loop_running w) (handlers w).

Definition set_loop_running (b : bool) (w : World) : World :=
  mkWorld (vmcp_process w) (mcp_session w) (exit_stack w) b (handlers w).

Definition set_handlers (d : Disposition) (w : World) : World :=
  mkWorld (vmcp_process w) (mcp_session w) (exit_stack w) (loop_running w) d.

(** The interpreter at start-up: the three globals are [None]. *)
Definition initial : World := mkWorld None None None false Inherited.

(** What the environment decides. *)
Record Env : Type := mkEnv {
  which_vmcp : bool;
  which_thv : bool;
  config_exists : bool;
  thv_list_ok : bool;
  validate_ok : bool;
  AUTO_CONTINUE : bool;
  server_pid : Z;
  health : nat -> ProbeResult;
  enter_ok : Resource -> bool;
  initialize_ok : bool;
  tool_reply : string -> ToolReply;
  keep_running : string;
  release_fails : Resource -> bool;
  term_delay : option N;
  handshake_cancelled : bool
}.

(** ** Computations *)

Inductive Result (A : Type) : Type :=
| Ok (a : A)
| Raise (e : exn).

Arguments Ok {A} a.
Arguments Raise {A} e.

Definition M (A : Type) : Type := World -> Result A * World * list Event.

Definition ret {A} (a : A) : M A := fun w => (Ok a, w, []).

Definition bind {A B} (m : M A) (f : A -> M B) : M B :=
  fun w =>
    match m w with
    | (Ok a, w1, t1) =>
        match f a w1 with
        | (r, w2, t2) => (r, w2, t1 ++ t2)
        end
    | (Raise e, w1, t1) => (Raise e, w1, t1)
    end.

Notation "x <- c1 ;; c2" := (bind c1 (fun x => c2))
  (at level 61, c1 at next level, right associativity).
Notation "c1 ;; c2" := (bind c1 (fun _ => c2))
  (at level 61, right associativity).

Definition raise {A} (e : exn) : M A := fun w => (Raise e, w, []).

Definition emit (ev : Event) : M unit := fun w => (Ok tt, w, [ev]).

Definition gets {A} (f : World -> A) : M A := fun w => (Ok (f w), w, []).

Definition modify (f : World -> World) : M unit := fun w => (Ok tt, f w, []).

(** [try: body / except <catches> as e: handler e]. *)
Definition try_except {A} (body : M A) (catches : exn -> bool)
    (handler : exn -> M A) : M A :=
  fun w =>
    match body w with
    | (Raise e, w1, t1) =>
        if catches e then
          match handler e w1 with
          | (r, w2, t2) => (r, w2, t1 ++ t2)
          end
        else (Raise e, w1, t1)
    | done => done
    end.

(** [try: body / finally: fin]. *)
Definition try_finally {A} (body : M A) (fin : M unit) : M A :=
  fun w =>
    match body w with
    | (r, w1, t1) =>
        match fin w1 with
        | (Ok _, w2, t2) => (r, w2, t1 ++ t2)
        | (Raise e, w2, t2) => (Raise e, w2, t1 ++ t2)
        end
    end.

Definition sys_exit {A} (code : Z) : M A := raise (SystemExit code).

Definition console_print (msg : string) : M unit := emit (Print msg).

(** Calling a method on a global that is still [None]. *)
Definition none_has_no (A : Type) (attr : string) : M A :=
  raise (Exc AttributeError ("'NoneType' object has no attribute '" ++ attr ++ "'")%string).

Section Lifecycle.

Variable env : Env.

(** *** The server handle *)

Definition set_status (s : ProcStatus) : M unit :=
  modify (fun w =>
    match vmcp_process w with
    | Some h => set_vmcp_process (Some (mkPopen (pid h) s)) w
    | None => w
    end).

(** [vmcp_process.terminate()]: SIGTERM, unless the process has exited. *)
Definition terminate : M unit :=
  h <- gets vmcp_process ;;
  match h with
  | None => none_has_no unit "terminate"
  | Some p =>
      emit Terminate ;;
      match status p with
      | Stopped => ret tt
      | _ => emit (Sent SIGTERM) ;; set_status Terminating
      end
  end.

(** [vmcp_process.wait(timeout=t)], [t] in seconds.  A server that was asked
    to terminate exits [term_delay] milliseconds later, if it ever does; one
    that was not asked keeps serving. *)
Definition wait (t : N) : M unit :=
  h <- gets vmcp_process ;;
  match h with
  | None => none_has_no unit "wait"
  | Some p =>
      emit (Wait t) ;;
      match status p with
      | Stopped => ret tt
      | Terminating =>
          match term_delay env with
          | Some d =>
              if (d <=? t * 1000)%N then set_status Stopped
              else raise (Exc TimeoutExpired "timed out")
          | None => raise (Exc TimeoutExpired "timed out")
          end
      | Running => raise (Exc TimeoutExpired "timed out")
      end
  end.

(** [vmcp_process.kill()]: SIGKILL, unless the process has exited; a killed
    process is gone. *)
Definition kill : M unit :=
  h <- gets vmcp_process ;;
  match h with
  | None => none_has_no unit "kill"
  | Some p =>
      emit Kill ;;
      match status p with
      | Stopped => ret tt
      | _ => emit (Sent SIGKILL) ;; set_status Stopped
      end
  end.

(** *** The exit stack *)

(** The most recently entered resource is at the head. *)
Definition push (r : Resource) (w : World) : World :=
  match exit_stack w with
  | Some cbs => set_exit_stack (Some (r :: cbs)) w
  | None => w
  end.

(** [await exit_stack.enter_async_context(cm)]: the release callback is
    pushed only when [__aenter__] returns. *)
Definition enter_async_context (r : Resource) : M unit :=
  s <- gets exit_stack ;;
  match s with
  | None => none_has_no unit "enter_async_context"
  | Some _ =>
      emit (Enter r) ;;
      if enter_ok env r then modify (push r)
      else raise (Exc OtherException "connection failed")
  end.

(** What a release callback does to the globals: the session's marks the
    session object closed. *)
Definition released (r : Resource) (w : World) : World :=
  match r with
  | Transport => w
  | Session =>
      match mcp_session w with
      | Some s => set_mcp_session (Some (mkClientSession (initialized s) true)) w
      | None => w
      end
  end.

(** The loop of [AsyncExitStack.__aexit__]: callbacks are popped and run
    last-in first-out; one that raises does not stop the others, and the
    exception is raised once the stack is empty. *)
Fixpoint drain (cbs : list Resource) (pending : option exn) : M unit :=
  match cbs with
  | [] =>
      match pending with
      | Some e => raise e
      | None => ret tt
      end
  | r :: rest =>
      modify (set_exit_stack (Some rest)) ;;
      emit (Release r) ;;
      modify (released r) ;;
      drain rest
        (if release_fails env r
         then Some (Exc OtherException "release failed")
         else pending)
  end.

(** [await exit_stack.aclose()]. *)
Definition aclose : M unit :=
  s <- gets exit_stack ;;
  match s with
  | None => none_has_no unit "aclose"
  | Some cbs => drain cbs None
  end.

(** *** Teardown *)

(** [cleanup_async]. *)
Definition cleanup_async : M unit :=
  s <- gets exit_stack ;;
  match s with
  | Some _ => try_except aclose is_Exception (fun _ => ret tt)
  | None => ret tt
  end ;;
  h <- gets vmcp_process ;;
  match h with
  | Some _ =>
      console_print "[yellow]Stopping Virtual MCP Server...[/yellow]" ;;
      terminate ;;
      try_except (wait 3) (is_class TimeoutExpired) (fun _ => kill) ;;
      console_print "[green]✓ Server stopped[/green]"
  | None => ret tt
  end.

(** [asyncio.run(main)]: refuses to start inside a running event loop. *)
Definition asyncio_run {A} (m : M A) : M A :=
  running <- gets loop_running ;;
  if running : bool then
    raise (Exc RuntimeError
             "asyncio.run() cannot be called from a running event loop")
  else
    modify (set_loop_running true) ;;
    try_finally m (modify (set_loop_running false)).

(** [cleanup]. *)
Definition cleanup : M unit :=
  try_except (asyncio_run cleanup_async) is_Exception (fun _ => ret tt).

(** *** Console helpers *)

(** [for x in xs: body x]. *)
Fixpoint for_each {A} (xs : list A) (body : A -> M unit) : M unit :=
  match xs with
  | [] => ret tt
  | x :: rest => body x ;; for_each rest body
  end.

(** [wait_for_user]. *)
Definition wait_for_user : M unit :=
  if negb (AUTO_CONTINUE env) then
    console_print "[dim]Press [bold]Enter[/bold] to continue...[/dim]" ;;
    emit Input
  else emit Sleep.

(** *** Prerequisites *)

Definition VMCP_BIN : string := "vmcp".
Definition THV_BIN : string := "thv".
Definition CONFIG_FILE : string := "vmcp-config.yaml".

(** [check_prerequisites]. *)
Definition check_prerequisites : M unit :=
  let errors := [] in
  let errors :=
    if negb (which_vmcp env)
    then errors ++ ["vmcp not found in PATH. Run: task install-vmcp"]
    else errors in
  let errors :=
    if negb (which_thv env)
    then errors ++ ["thv not found in PATH. Run: task install"]
    else errors in
  let errors :=
    if negb (config_exists env)
    then errors ++ [("Configuration file not found: " ++ CONFIG_FILE)%string]
    else errors in
  match errors with
  | _ :: _ =>
      console_print "[bold red]Prerequisites check failed:[/bold red]" ;;
      for_each errors (fun error =>
        console_print ("  [red]✗ " ++ error ++ "[/red]")%string) ;;
      sys_exit 1
  | [] => ret tt
  end ;;
  console_print "[green]✓ Prerequisites check passed[/green]".

(** *** The scripted steps before the server starts *)

(** [step_introduction]: banner and tables, then the pause. *)
Definition step_introduction : M unit := wait_for_user.

(** [subprocess.run(argv, check=True)]: the executable must exist, and a
    non-zero exit status raises [CalledProcessError]. *)
Definition subprocess_run (argv : list string) (installed succeeds : bool)
    : M unit :=
  if installed then
    emit (Run argv) ;;
    if succeeds then ret tt
    else raise (Exc CalledProcessError "non-zero exit status")
  else raise (Exc OtherException "No such file or directory").

(** [step_show_backends]. *)
Definition step_show_backends : M unit :=
  emit Sleep ;;
  console_print "[yellow]$ thv list --group default[/yellow]" ;;
  try_except
    (subprocess_run [THV_BIN; "list"; "--group"; "default"]
       (which_thv env) (thv_list_ok env))
    (is_class CalledProcessError)
    (fun _ =>
       console_print "[yellow]⚠ Make sure backend servers are running![/yellow]" ;;
       sys_exit 1) ;;
  wait_for_user.

(** [step_show_config]: [open(CONFIG_FILE)] raises when the file is gone. *)
Definition step_show_config : M unit :=
  emit Sleep ;;
  (if config_exists env then ret tt
   else raise (Exc OtherException "No such file or directory")) ;;
  wait_for_user.

(** [step_validate_config]. *)
Definition step_validate_config : M unit :=
  emit Sleep ;;
  try_except
    (subprocess_run [VMCP_BIN; "validate"; "--config"; CONFIG_FILE]
       (which_vmcp env) (validate_ok env) ;;
     console_print "[green]✓ Configuration is valid![/green]")
    (is_class CalledProcessError)
    (fun _ => console_print "[red]✗ Validation failed:[/red]" ;; sys_exit 1) ;;
  wait_for_user.

(** *** Starting the server and connecting *)

(** [subprocess.Popen([VMCP_BIN, "serve", "--config", ...])], assigned to
    the global [vmcp_process]. *)
Definition spawn_server : M unit :=
  let argv := [VMCP_BIN; "serve"; "--config"; CONFIG_FILE] in
  if which_vmcp env then
    emit (Spawn argv) ;;
    modify (set_vmcp_process (Some (mkPopen (server_pid env) Running)))
  else raise (Exc OtherException "No such file or directory: 'vmcp'").

(** The body of [for i in range(20)]: one GET on the health endpoint, left
    by [break] on status 200; a request error is swallowed, and every
    unsuccessful attempt is followed by the half-second sleep.  The result
    tells whether the loop was left by [break] ([false]: the [else] branch
    of the loop runs). *)
Fixpoint poll (attempts : list nat) : M bool :=
  match attempts with
  | [] => ret false
  | i :: rest =>
      emit Probe ;;
      match health env i with
      | Status code =>
          if (code =? 200)%Z then ret true
          else emit Sleep ;; poll rest
      | ProbeRequestError => emit Sleep ;; poll rest
      | ProbeOtherError => raise (Exc OtherException "health probe failed")
      end
  end.

Definition MAX_ATTEMPTS : nat := 20.

(** The readiness loop of [step_start_server] with its [else] branch; the
    source writes the budget as the literal 20, see [MAX_ATTEMPTS]. *)
Definition wait_ready (max_attempts : nat) : M unit :=
  ready <- poll (seq 0 max_attempts) ;;
  if ready : bool then ret tt
  else console_print "[red]✗ Server failed to start[/red]" ;; sys_exit 1.

(** [await mcp_session.initialize()].  A handshake that fails raises an
    [Exception], or, when the transport underneath gives up and cancels the
    waiting task, [asyncio.CancelledError]. *)
Definition initialize : M unit :=
  s <- gets mcp_session ;;
  match s with
  | None => none_has_no unit "initialize"
  | Some sess =>
      emit Initialize ;;
      if initialize_ok env
      then modify (set_mcp_session (Some (mkClientSession true (closed sess))))
      else if handshake_cancelled env then raise CancelledError
      else raise (Exc OtherException "initialize failed")
  end.

(** The [try] block of [step_start_server] that opens the session. *)
Definition connect : M unit :=
  modify (set_exit_stack (Some [])) ;;
  enter_async_context Transport ;;
  enter_async_context Session ;;
  modify (set_mcp_session (Some (mkClientSession false false))) ;;
  initialize ;;
  console_print "[green]✓ MCP client connected successfully![/green]".

(** [step_start_server]. *)
Definition step_start_server : M unit :=
  console_print "[cyan]ℹ Starting Virtual MCP Server...[/cyan]" ;;
  emit Sleep ;;
  spawn_server ;;
  console_print "[dim]Logs saved to: vmcp-server.log[/dim]" ;;
  wait_ready MAX_ATTEMPTS ;;
  console_print "[green]✓ Virtual MCP Server is running![/green]" ;;
  console_print "[cyan]ℹ Connecting MCP client to server...[/cyan]" ;;
  try_except connect is_Exception
    (fun e =>
       console_print
         ("[red]✗ Failed to connect MCP client: " ++ str e ++ "[/red]")%string ;;
       sys_exit 1) ;;
  wait_for_user.

(** *** Tool calls *)

(** [mcp_session.call_tool(name, params)] on a session object. *)
Definition call_tool (sess : ClientSession) (name : string)
    (params : list (string * Json)) : M (list ContentBlock * option bool) :=
  emit (CallTool name params) ;;
  if closed sess then raise (Exc OtherException "session is closed")
  else
    match tool_reply env name with
    | Reply blocks is_error => ret (blocks, is_error)
    | Fault msg => raise (Exc OtherException msg)
    | Cancelled => raise CancelledError
    end.

(** [execute_composite_tool]. *)
Definition execute_composite_tool (tool_name : string)
    (params : list (string * Json)) : M ToolResult :=
  s <- gets mcp_session ;;
  match s with
  | None => raise (Exc RuntimeError "MCP session not initialized")
  | Some sess =>
      try_except
        (result <- call_tool sess tool_name params ;;
         ret (mkToolResult (fst result)
                (match snd result with Some b => b | None => false end)))
        is_Exception
        (fun e =>
           console_print ("[red]✗ Tool call failed: " ++ str e ++ "[/red]")%string ;;
           raise e)
  end.

(** [truncate_long_fields], for the limits that are not negative (the one
    call passes 150).  A character of a Rocq string stands for one character
    of the Python string, so lengths and prefixes agree with [len] and
    slicing on text whose code points are below 256. *)
Fixpoint truncate_long_fields (data : Json) (max_length : nat) : Json :=
  match data with
  | JDict fields =>
      JDict (map (fun kv =>
                    match kv with
                    | (k, v) => (k, truncate_long_fields v max_length)
                    end) fields)
  | JList items =>
      JList (map (fun item => truncate_long_fields item max_length) items)
  | JStr s =>
      if (max_length <? String.length s)%nat
      then JStr (substring 0 max_length s ++ "... (truncated)")%string
      else data
  | _ => data
  end.

(** [json.loads] of the standard library, taken as given. *)
Variable json_loads : string -> Loads.

(** The call [json.loads(content.text)]. *)
Definition loads (text : string) : M Json :=
  match json_loads text with
  | Loaded value => ret value
  | LoadsRaises cls msg => raise (Exc cls msg)
  end.

(** The [try]/[except json.JSONDecodeError] of [display_workflow_result]:
    the value bound to [parsed_result].  Only [JSONDecodeError] is caught;
    anything else [json.loads] raises leaves the function. *)
Definition parsed_result (text : string) : M Json :=
  try_except (loads text) (is_class JSONDecodeError)
    (fun _ => ret (JDict [("raw_output", JStr text)])).

(** The [for content in result["content"]] loop: the first text block is
    decoded and rendered, and the loop is left. *)
Fixpoint display_blocks (title : string) (blocks : list ContentBlock) : M unit :=
  match blocks with
  | [] => ret tt
  | TextContent text :: _ =>
      parsed <- parsed_result text ;;
      emit (Render title (truncate_long_fields parsed 150))
  | OtherContent :: rest => display_blocks title rest
  end.

(** [display_workflow_result]. *)
Definition display_workflow_result (result : ToolResult) (title : string) : M unit :=
  match content result with
  | [] => console_print "[yellow]No result content[/yellow]"
  | blocks => display_blocks title blocks
  end.

(** The three demo steps share one shape. *)
Definition step_demo (tool_name title : string) : M unit :=
  wait_for_user ;;
  console_print "[cyan]Executing composite tool...[/cyan]" ;;
  result <- execute_composite_tool tool_name [] ;;
  console_print "[green]✓ Workflow completed[/green]" ;;
  display_workflow_result result title ;;
  wait_for_user.

Definition step_demo_aggregate_docs : M unit :=
  step_demo "aggregate_docs" "Documentation Aggregation".

Definition step_demo_analyze_repo : M unit :=
  step_demo "analyze_repository" "GitHub Activity Analysis".

Definition step_demo_investigate_image : M unit :=
  step_demo "investigate_image" "Container Image Details".

(** [step_summary]: tables only. *)
Definition step_summary : M unit := ret tt.

(** *** The main flow *)

Definition lower_ascii (c : ascii) : ascii :=
  let n := nat_of_ascii c in
  if ((65 <=? n) && (n <=? 90))%nat then ascii_of_nat (n + 32) else c.

(** [str.lower] on ASCII text. *)
Fixpoint lower (s : string) : string :=
  match s with
  | EmptyString => EmptyString
  | String c rest => String (lower_ascii c) (lower rest)
  end.

(** The [else] branch of the operator's choice in [async_main]: the session
    is closed, the server keeps running and the signal handlers are reset.
    The second console line reads [vmcp_process.pid]. *)
Definition detach : M unit :=
  console_print "[green]✓ Server will continue running[/green]" ;;
  h <- gets vmcp_process ;;
  match h with
  | Some _ => console_print "[cyan]ℹ To stop later: kill <pid>[/cyan]"
  | None => none_has_no unit "pid"
  end ;;
  s <- gets exit_stack ;;
  match s with
  | Some _ => try_except aclose is_Exception (fun _ => ret tt)
  | None => ret tt
  end ;;
  modify (set_handlers SIG_DFL).

(** [async_main]. *)
Definition async_main : M unit :=
  try_except
    (check_prerequisites ;;
     step_introduction ;;
     step_show_backends ;;
     step_show_config ;;
     step_validate_config ;;
     step_start_server ;;
     step_demo_aggregate_docs ;;
     step_demo_analyze_repo ;;
     step_demo_investigate_image ;;
     step_summary ;;
     if negb (AUTO_CONTINUE env) then
       emit Input ;;
       if negb (lower (keep_running env) =? "y")%string
       then cleanup_async
       else detach
     else cleanup_async)
    is_Exception
    (fun e =>
       console_print ("[red bold]Error: " ++ str e ++ "[/red bold]")%string ;;
       cleanup_async ;;
       sys_exit 1).

(** The handler [main] installs for SIGINT and SIGTERM:
    [lambda s, f: cleanup() or sys.exit(0)]. *)
Definition signal_handler : M unit :=
  cleanup ;; sys_exit 0.

(** [main]. *)
Definition main : M unit :=
  modify (set_handlers CleanupHandler) ;;
  try_except (asyncio_run async_main) is_Exception
    (fun e =>
       console_print ("[red bold]Error: " ++ str e ++ "[/red bold]")%string ;;
       cleanup ;;
       sys_exit 1).

(** *** A signal during the run *)

(** The last statement of the [try] block of [async_main]: the operator's
    choice between teardown and detach. *)
Definition closing : M unit :=
  if negb (AUTO_CONTINUE env) then
    emit Input ;;
    if negb (lower (keep_running env) =? "y")%string
    then cleanup_async
    else detach
  else cleanup_async.

(** The statements of the [try] block of [async_main], in order. *)
Definition script : list (M unit) :=
  [check_prerequisites; step_introduction; step_show_backends;
   step_show_config; step_validate_config; step_start_server;
   step_demo_aggregate_docs; step_demo_analyze_repo;
   step_demo_investigate_image; step_summary; closing].

(** Statements run one after the other. *)
Definition in_order (statements : list (M unit)) : M unit :=
  for_each statements (fun statement => statement).

(** [async_main] around a given [try] block, and [main] around a given
    coroutine. *)
Definition async_main_around (block : M unit) : M unit :=
  try_except block is_Exception
    (fun e =>
       console_print ("[red bold]Error: " ++ str e ++ "[/red bold]")%string ;;
       cleanup_async ;;
       sys_exit 1).

Definition main_around (coroutine : M unit) : M unit :=
  modify (set_handlers CleanupHandler) ;;
  try_except (asyncio_run coroutine) is_Exception
    (fun e =>
       console_print ("[red bold]Error: " ++ str e ++ "[/red bold]")%string ;;
       cleanup ;;
       sys_exit 1).

(** The program when SIGINT or SIGTERM arrives once the first [k]
    statements of the [try] block have run: the interpreter calls the
    installed handler on the main thread, where the exception it raises
    surfaces in place of the next statement. *)
Definition main_signalled (k : nat) : M unit :=
  main_around
    (async_main_around
       (in_order (firstn k script) ;;
        signal_handler ;;
        in_order (skipn k script))).

End Lifecycle.

(** The exit status of the interpreter once [main] has returned or raised:
    an exception that nothing caught ends it with status 1. *)
Definition exit_status {A} (r : Result A) : Z :=
  match r with
  | Ok _ => 0
  | Raise (SystemExit code) => code
  | Raise (Exc _ _) => 1
  | Raise CancelledError => 1
  end.

(** ** Reading a run *)

Definition result_of {A} (x : Result A * World * list Event) : Result A :=
  fst (fst x).

Definition world_of {A} (x : Result A * World * list Event) : World :=
  snd (fst x).

Definition events_of {A} (x : Result A * World * list Event) : list Event :=
  snd x.

(** The callbacks waiting on the exit stack, most recent first. *)
Definition stack_of (w : World) : list Resource :=
  match exit_stack w with
  | Some cbs => cbs
  | None => []
  end.

(** The release callbacks a run fired, in order. *)
Definition releases (evs : list Event) : list Resource :=
  flat_map (fun ev => match ev with Release r => [r] | _ => [] end) evs.

(** The signals a run sent to the server, in order. *)
Definition signals (evs : list Event) : list Signal :=
  flat_map (fun ev => match ev with Sent s => [s] | _ => [] end) evs.

Definition is_process_event (ev : Event) : bool :=
  match ev with
  | Terminate | Wait _ | Kill | Sent _ => true
  | _ => false
  end.

(** What a run did to the server handle: calls and signals, in order. *)
Definition process_events (evs : list Event) : list Event :=
  filter is_process_event evs.

Definition is_probe (ev : Event) : bool :=
  match ev with Probe => true | _ => false end.

(** How many times a run queried the health endpoint. *)
Definition probes (evs : list Event) : nat :=
  length (filter is_probe evs).

Definition is_spawn_or_enter (ev : Event) : bool :=
  match ev with
  | Spawn _ | Run _ | Enter _ => true
  | _ => false
  end.

(** The subprocesses a run started and the resources it tried to acquire. *)
Definition acquisitions (evs : list Event) : list Event :=
  filter is_spawn_or_enter evs.

Definition is_call_tool (ev : Event) : bool :=
  match ev with CallTool _ _ => true | _ => false end.

(** The remote calls a run issued. *)
Definition remote_calls (evs : list Event) : list Event :=
  filter is_call_tool evs.

(** A probe outcome the readiness loop treats as "not yet ready". *)
Definition not_ready (r : ProbeResult) : bool :=
  match r with
  | Status code => negb (code =? 200)%Z
  | ProbeRequestError => true
  | ProbeOtherError => false
  end.

(** The server exits within [t] seconds of SIGTERM. *)
Definition exits_within (env : Env) (t : N) : bool :=
  match term_delay env with
  | Some d => (d <=? t * 1000)%N
  | None => false
  end.

(** The first text block of a reply, if any. *)
Fixpoint first_text (blocks : list ContentBlock) : option string :=
  match blocks with
  | [] => None
  | TextContent text :: _ => Some text
  | OtherContent :: rest => first_text rest
  end.

(** No session is active: the global is [None], or the session object it
    holds has been closed. *)
Definition session_inactive (w : World) : Prop :=
  mcp_session w = None \/
  exists s, mcp_session w = Some s /\ closed s = true.

(** The not-connected error of [execute_composite_tool]. *)
Definition not_connected : exn :=
  Exc RuntimeError "MCP session not initialized".

(** The two binaries and the configuration file are all there. *)
Definition all_present (env : Env) : bool :=
  which_vmcp env && which_thv env && config_exists env.

(** The claim of C8 at one call: the call fails with the not-connected error
    and no remote call is issued. *)
Definition fails_fast (env : Env) (w : World) (tool_name : string)
    (params : list (string * Json)) : Prop :=
  let r := execute_composite_tool env tool_name params w in
  result_of r = Raise not_connected /\ remote_calls (events_of r) = [].

(** ** Concrete runs *)

(** [n] copies of a character. *)
Fixpoint copies (n : nat) (c : ascii) : string :=
  match n with
  | O => EmptyString
  | S n' => String c (copies n' c)
  end.

(** Two thousand opening brackets: not JSON, and nested too deeply for the
    decoder. *)
Definition deep_text : string := copies 2000 "["%char.

(** An integer literal of five thousand digits: JSON, but beyond the digit
    limit of the interpreter. *)
Definition huge_text : string := copies 5000 "1"%char.

(** A stand-in for [json.loads] that accepts the three JSON literals, gives
    up on the two texts above the way the interpreter does, and rejects
    everything else. *)
Definition loads_literal (text : string) : Loads :=
  if (text =? "null")%string then Loaded JNull
  else if (text =? "true")%string then Loaded (JBool true)
  else if (text =? "false")%string then Loaded (JBool false)
  else if (text =? deep_text)%string then
    LoadsRaises RecursionError
      "maximum recursion depth exceeded while decoding a JSON array from a unicode string"
  else if (text =? huge_text)%string then
    LoadsRaises ValueError
      "Exceeds the limit (4300 digits) for integer string conversion"
  else LoadsRaises JSONDecodeError "Expecting value".

(** An environment in which everything is installed and the operator sits
    at the keyboard; the health endpoint, the handshake, the tool replies
    and the operator's last answer vary. *)
Definition demo_env (probe : nat -> ProbeResult) (handshake : bool)
    (reply : string -> ToolReply) (answer : string) (delay : option N) : Env :=
  mkEnv true true true true true false 4242 probe (fun _ => true) handshake
    reply answer (fun _ => false) delay false.

(** The server refuses connections three times, then answers 200. *)
Definition slow_start (i : nat) : ProbeResult :=
  if (i <? 3)%nat then ProbeRequestError else Status 200.

(** The server never answers 200. *)
Definition never_up (i : nat) : ProbeResult :=
  if (i <? 5)%nat then ProbeRequestError else Status 503.

Definition null_reply (name : string) : ToolReply :=
  Reply [OtherContent; TextContent "null"] None.

Definition good_env : Env :=
  demo_env slow_start true null_reply "Y" (Some 100%N).

Definition dead_env : Env :=
  demo_env never_up true null_reply "n" (Some 100%N).

Definition bad_handshake_env : Env :=
  demo_env slow_start false null_reply "n" (Some 100%N).

Definition stubborn_env : Env :=
  demo_env slow_start true null_reply "n" None.

(** Neither the vmcp binary nor the configuration file is there. *)
Definition bare_env : Env :=
  mkEnv false true false true true false 4242 slow_start (fun _ => true) true
    null_reply "n" (fun _ => false) (Some 100%N) false.

(** The globals in the middle of the demo: server running, session open. *)
Definition running_world : World :=
  mkWorld (Some (mkPopen 4242 Running))
    (Some (mkClientSession true false))
    (Some [Session; Transport]) true CleanupHandler.

(** The globals once the session has been closed and the server kept. *)
Definition closed_world : World :=
  mkWorld (Some (mkPopen 4242 Running))
    (Some (mkClientSession true true))
    (Some []) true SIG_DFL.

(** What displaying a result puts on the console. *)
Definition rendered (json_loads : string -> Loads) (result : ToolResult)
    (title : string) : list Event :=
  events_of (display_workflow_result json_loads result title initial).

(** The world [drain] leaves behind. *)
Fixpoint drained (cbs : list Resource) (w : World) : World :=
  match cbs with
  | [] => w
  | r :: rest => drained rest (released r (set_exit_stack (Some rest) w))
  end.

(** The exception [drain] ends with, if any. *)
Fixpoint drain_pending (env : Env) (cbs : list Resource) (pending : option exn)
    : option exn :=
  match cbs with
  | [] => pending
  | r :: rest =>
      drain_pending env rest
        (if release_fails env r
         then Some (Exc OtherException "release failed")
         else pending)
  end.

(** The world once the server has been stopped. *)
Definition stopped (w : World) : World :=
  match vmcp_process w with
  | Some p => set_vmcp_process (Some (mkPopen (pid p) Stopped)) w
  | None => w
  end.

(** What stopping does to a handle in a given status. *)
Definition stop_trace (env : Env) (s : ProcStatus) : list Event :=
  match s with
  | Stopped => [Terminate; Wait 3]
  | _ =>
      if exits_within env 3
      then [Terminate; Sent SIGTERM; Wait 3]
      else [Terminate; Sent SIGTERM; Wait 3; Kill; Sent SIGKILL]
  end.

Definition stopping_line : Event :=
  Print "[yellow]Stopping Virtual MCP Server...[/yellow]".

Definition stopped_line : Event :=
  Print "[green]✓ Server stopped[/green]".

(** The effects of the second half of [cleanup_async]. *)
Definition teardown_trace (env : Env) (h : option Popen) : list Event :=
  match h with
  | Some p => stopping_line :: stop_trace env (status p) ++ [stopped_line]
  | None => []
  end.

(** ** More observers *)

(** Every string value of a JSON document is at most [limit] characters long;
    dictionary keys are not values. *)
Fixpoint strings_within (limit : nat) (data : Json) : bool :=
  match data with
  | JStr s => (String.length s <=? limit)%nat
  | JList items => forallb (strings_within limit) items
  | JDict fields =>
      forallb (fun kv => match kv with (_, v) => strings_within limit v end)
        fields
  | _ => true
  end.

(** The marker [truncate_long_fields] appends. *)
Definition TRUNCATED : string := "... (truncated)".

(** Entering a sequence of context managers on the exit stack, one after
    the other, as [step_start_server] does with its two. *)
Definition enter_all (env : Env) (rs : list Resource) : M unit :=
  for_each rs (enter_async_context env).

(** The resources a run tried to enter, in order. *)
Definition entered (evs : list Event) : list Resource :=
  flat_map (fun ev => match ev with Enter r => [r] | _ => [] end) evs.

Definition is_sleep (ev : Event) : bool :=
  match ev with Sleep => true | _ => false end.

(** How many times a run slept. *)
Definition sleeps (evs : list Event) : nat :=
  length (filter is_sleep evs).

(** The health endpoint is not ready on the first three queries and the
    fourth fails with something other than a request error. *)
Definition crash_on_fourth (i : nat) : ProbeResult :=
  if (i <? 3)%nat then Status 503 else ProbeOtherError.

Definition crashing_probe_env : Env :=
  demo_env crash_on_fourth true null_reply "n" (Some 100%N).

Definition is_spawn (ev : Event) : bool :=
  match ev with Spawn _ => true | _ => false end.

(** The server processes a run started. *)
Definition spawns (evs : list Event) : list Event :=
  filter is_spawn evs.

(** The three gates before the server is started: prerequisites, the
    listing of the backends and the validation of the configuration. *)
Definition gates_pass (env : Env) : bool :=
  all_present env && thv_list_ok env && validate_ok env.

Definition is_shutdown_event (ev : Event) : bool :=
  match ev with
  | Release _ | Terminate | Wait _ | Kill | Sent _ => true
  | _ => false
  end.

(** Everything a run did to tear down: releases, calls on the server handle
    and signals, in order. *)
Definition shutdown_events (evs : list Event) : list Event :=
  filter is_shutdown_event evs.

(** The configuration does not validate. *)
Definition invalid_config_env : Env :=
  mkEnv true true true true false false 4242 slow_start (fun _ => true) true
    null_reply "n" (fun _ => false) (Some 100%N) false.

(** The first composite tool fails. *)
Definition failing_reply (name : string) : ToolReply :=
  if (name =? "aggregate_docs")%string then Fault "backend unavailable"
  else Reply [TextContent "null"] None.

Definition failing_tool_env : Env :=
  demo_env slow_start true failing_reply "n" (Some 100%N).

(** Unattended: AUTO_CONTINUE is set. *)
Definition unattended_env : Env :=
  mkEnv true true true true true true 4242 slow_start (fun _ => true) true
    null_reply "" (fun _ => false) None false.

(** The result and the world of a run, without its events. *)
Definition outcome {A} (m : M A) (w : World) : Result A * World := fst (m w).

(** A computation that never reads from the operator, whatever the world
    it starts in. *)
Definition never_reads {A} (m : M A) : Prop :=
  forall w, ~ In Input (events_of (m w)).

(** The session's release callback fails. *)
Definition leaky_env : Env :=
  mkEnv true true true true true false 4242 slow_start (fun _ => true) true
    null_reply "n"
    (fun r => match r with Session => true | Transport => false end)
    (Some 100%N) false.

(** A reply whose first text block is far longer than the display limit. *)
Definition long_text : string :=
  "0123456789012345678901234567890123456789012345678901234567890123456789012345678901234567890123456789012345678901234567890123456789012345678901234567890123456789012345678901234567890123456789".

(** The fallback of [display_workflow_result] for a text that is not
    JSON. *)
Definition raw_output (text : string) : Json :=
  JDict [("raw_output", JStr text)].

(** What the [try]/[except] around [json.loads] ends with: the decoded
    value, the fallback, or the exception that was not caught. *)
Definition decoded (json_loads : string -> Loads) (text : string)
    : Result Json :=
  result_of (parsed_result json_loads text initial).

(** The exception displaying a reply ends with, if any. *)
Definition display_error (json_loads : string -> Loads)
    (blocks : list ContentBlock) : option exn :=
  match
    result_of (display_workflow_result json_loads
                 (mkToolResult blocks false) "" initial)
  with
  | Ok _ => None
  | Raise e => Some e
  end.

(** The text is rejected by the decoder: [json.loads] does not return. *)
Definition not_decoded (json_loads : string -> Loads) (text : string) : Prop :=
  forall value, json_loads text <> Loaded value.

(** The claim of C7 for a text the decoder rejects: displaying a result
    whose first text block carries it returns normally and renders the
    fallback wrapper. *)
Definition falls_back (json_loads : string -> Loads) (result : ToolResult)
    (title text : string) : Prop :=
  display_workflow_result json_loads result title initial =
    (Ok tt, initial,
     [Render title (truncate_long_fields (raw_output text) 150)]).

(** A document with its string values blanked: what is left is its shape,
    its keys, numbers, booleans and nulls. *)
Fixpoint skeleton (data : Json) : Json :=
  match data with
  | JStr _ => JStr ""
  | JList items => JList (map skeleton items)
  | JDict fields =>
      JDict (map (fun kv => match kv with (k, v) => (k, skeleton v) end)
               fields)
  | _ => data
  end.

(** The string values of a document, in order. *)
Fixpoint strings_of (data : Json) : list string :=
  match data with
  | JStr s => [s]
  | JList items => flat_map strings_of items
  | JDict fields =>
      flat_map (fun kv => match kv with (_, v) => strings_of v end) fields
  | _ => []
  end.

(** What truncation makes of one string value. *)
Definition cut_to (max_length : nat) (s s' : string) : Prop :=
  (String.length s <= max_length /\ s' = s) \/
  (max_length < String.length s /\
   s' = (substring 0 max_length s ++ TRUNCATED)%string).

(** A computation none of whose events is one of the [bad] ones, whatever
    the world it starts in. *)
Definition never_emits {A} (bad : Event -> bool) (m : M A) : Prop :=
  forall w ev, In ev (events_of (m w)) -> bad ev = false.

(** The world [asyncio.run] hands to [async_main]: handlers installed, loop
    running. *)
Definition started : World :=
  set_loop_running true (set_handlers CleanupHandler initial).

(** The first tool call is cancelled. *)
Definition cancelled_reply (name : string) : ToolReply :=
  if (name =? "aggregate_docs")%string then Cancelled
  else Reply [TextContent "null"] None.

Definition cancelled_tool_env : Env :=
  demo_env slow_start true cancelled_reply "n" (Some 100%N).

(** The handshake is cancelled. *)
Definition cancelled_handshake_env : Env :=
  mkEnv true true true true true false 4242 slow_start (fun _ => true) false
    null_reply "n" (fun _ => false) (Some 100%N) true.

(** The first tool answers with a text nested too deeply to decode. *)
Definition deep_reply (name : string) : ToolReply :=
  Reply [TextContent deep_text] None.

Definition deep_reply_env : Env :=
  demo_env slow_start true deep_reply "Y" (Some 100%N).

(** ** Traces *)

Lemma releases_app a b : releases (a ++ b) = releases a ++ releases b.
Proof. apply flat_map_app. Qed.

Lemma signals_app a b : signals (a ++ b) = signals a ++ signals b.
Proof. apply flat_map_app. Qed.

Lemma process_events_app a b :
  process_events (a ++ b) = process_events a ++ process_events b.
Proof. apply filter_app. Qed.

Lemma probes_app a b : probes (a ++ b) = probes a + probes b.
Proof. unfold probes. rewrite filter_app. apply length_app. Qed.

Lemma releases_map_Release cbs : releases (map Release cbs) = cbs.
Proof. induction cbs as [|r rest IH]; simpl; [reflexivity|]. now rewrite IH. Qed.

Lemma signals_map_Release cbs : signals (map Release cbs) = [].
Proof. induction cbs as [|r rest IH]; simpl; [reflexivity|]. exact IH. Qed.

Lemma process_events_map_Release cbs : process_events (map Release cbs) = [].
Proof. induction cbs as [|r rest IH]; simpl; [reflexivity|]. exact IH. Qed.

(** The effects of a run of unsuccessful attempts. *)
Lemma releases_attempts (attempts : list nat) :
  releases (flat_map (fun _ => [Probe; Sleep]) attempts) = [].
Proof. induction attempts as [|i rest IH]; [reflexivity|exact IH]. Qed.

Lemma signals_attempts (attempts : list nat) :
  signals (flat_map (fun _ => [Probe; Sleep]) attempts) = [].
Proof. induction attempts as [|i rest IH]; [reflexivity|exact IH]. Qed.

Lemma process_events_attempts (attempts : list nat) :
  process_events (flat_map (fun _ => [Probe; Sleep]) attempts) = [].
Proof. induction attempts as [|i rest IH]; [reflexivity|exact IH]. Qed.

Lemma probes_attempts (attempts : list nat) :
  probes (flat_map (fun _ => [Probe; Sleep]) attempts) = length attempts.
Proof.
  induction attempts as [|i rest IH]; [reflexivity|].
  simpl. unfold probes in *. simpl. now rewrite IH.
Qed.

Create Rewrite HintDb trace.

#[local] Hint Rewrite
  releases_app signals_app process_events_app
  releases_map_Release signals_map_Release process_events_map_Release
  releases_attempts signals_attempts process_events_attempts
  app_nil_r : trace.

(** Evaluation unfolds the observers; this folds them back. *)
Ltac fold_observers :=
  repeat match goal with
    | |- context [flat_map ?f ?evs] =>
        first [ progress change (flat_map f evs) with (releases evs)
              | progress change (flat_map f evs) with (signals evs) ]
    | |- context [filter is_process_event ?evs] =>
        progress change (filter is_process_event evs)
          with (process_events evs)
    end.

(** Pushes the observers through a trace made of known events and of
    pieces an earlier lemma describes. *)
Ltac observe :=
  repeat first
    [ progress fold_observers
    | progress autorewrite with trace
    | progress cbn [releases signals process_events flat_map filter app
                    is_process_event] ].

(** ** The exit stack *)

Lemma drain_run env cbs : forall pending w,
  drain env cbs pending w =
    (match drain_pending env cbs pending with
     | Some e => Raise e
     | None => Ok tt
     end, drained cbs w, map Release cbs).
Proof.
  induction cbs as [|r rest IH]; intros pending w.
  - simpl. destruct pending; reflexivity.
  - simpl. unfold bind at 1. simpl.
    unfold bind at 1. simpl. unfold bind at 1. simpl.
    rewrite IH. reflexivity.
Qed.

Lemma released_exit_stack r w : exit_stack (released r w) = exit_stack w.
Proof.
  destruct r; simpl; [reflexivity|]. destruct (mcp_session w); reflexivity.
Qed.

Lemma released_vmcp_process r w : vmcp_process (released r w) = vmcp_process w.
Proof.
  destruct r; simpl; [reflexivity|]. destruct (mcp_session w); reflexivity.
Qed.

Lemma drained_vmcp_process cbs : forall w,
  vmcp_process (drained cbs w) = vmcp_process w.
Proof.
  induction cbs as [|r rest IH]; intros w; simpl; [reflexivity|].
  rewrite IH, released_vmcp_process. reflexivity.
Qed.

Lemma drained_exit_stack cbs : forall w,
  exit_stack w = Some cbs -> exit_stack (drained cbs w) = Some [].
Proof.
  induction cbs as [|r rest IH]; intros w Hw; simpl; [exact Hw|].
  apply IH. rewrite released_exit_stack. reflexivity.
Qed.

(** Draining what is on the stack leaves it empty. *)
Lemma drained_stack_of w : stack_of (drained (stack_of w) w) = [].
Proof.
  unfold stack_of at 2. destruct (exit_stack w) as [cbs|] eqn:Hw.
  - unfold stack_of. rewrite (drained_exit_stack cbs w Hw). reflexivity.
  - simpl. unfold stack_of. rewrite Hw. reflexivity.
Qed.

(** Whatever [drain] raises is an [Exception]. *)
Lemma drain_pending_Exception env cbs : forall pending,
  match pending with Some e => is_Exception e = true | None => True end ->
  match drain_pending env cbs pending with
  | Some e => is_Exception e = true
  | None => True
  end.
Proof.
  induction cbs as [|r rest IH]; intros pending Hp; simpl; [exact Hp|].
  apply IH. destruct (release_fails env r); [reflexivity|exact Hp].
Qed.

(** Closing the stack with its errors swallowed. *)
Lemma aclose_swallowed env w cbs :
  exit_stack w = Some cbs ->
  try_except (aclose env) is_Exception (fun _ => ret tt) w =
    (Ok tt, drained cbs w, map Release cbs).
Proof.
  intros Hw. unfold try_except, aclose, bind, gets. rewrite Hw.
  rewrite drain_run. simpl.
  pose proof (drain_pending_Exception env cbs None I) as Hp.
  destruct (drain_pending env cbs None) as [e|]; simpl.
  - rewrite Hp. simpl. rewrite app_nil_r. reflexivity.
  - reflexivity.
Qed.

(** The [if exit_stack:] block [cleanup_async] and the detach branch
    share. *)
Lemma close_if_open env w :
  match exit_stack w with
  | Some _ => try_except (aclose env) is_Exception (fun _ => ret tt)
  | None => ret tt
  end w = (Ok tt, drained (stack_of w) w, map Release (stack_of w)).
Proof.
  unfold stack_of. destruct (exit_stack w) as [cbs|] eqn:Hw.
  - apply aclose_swallowed; exact Hw.
  - reflexivity.
Qed.

(** ** Teardown *)

Lemma stack_of_stopped w : stack_of (stopped w) = stack_of w.
Proof. unfold stopped. destruct (vmcp_process w); reflexivity. Qed.

Lemma stopped_twice w : stopped (stopped w) = stopped w.
Proof.
  unfold stopped. destruct (vmcp_process w) as [p|] eqn:Hp; simpl.
  - reflexivity.
  - now rewrite Hp.
Qed.

Lemma vmcp_process_stopped w :
  vmcp_process (stopped w) =
    match vmcp_process w with
    | Some p => Some (mkPopen (pid p) Stopped)
    | None => None
    end.
Proof.
  unfold stopped. destruct (vmcp_process w) as [p|] eqn:Hp; simpl.
  - reflexivity.
  - exact Hp.
Qed.

(** [cleanup_async] in one equation: it never raises, it drains the stack
    and stops the server. *)
Lemma cleanup_async_run env w :
  cleanup_async env w =
    (Ok tt, stopped (drained (stack_of w) w),
     map Release (stack_of w) ++ teardown_trace env (vmcp_process w)).
Proof.
  unfold cleanup_async. unfold bind at 1. simpl.
  unfold bind at 1. rewrite close_if_open.
  unfold stopped, teardown_trace.
  rewrite (drained_vmcp_process (stack_of w) w).
  generalize (drained_vmcp_process (stack_of w) w).
  generalize (drained (stack_of w) w). intros w' Hw'.
  destruct w' as [h' s' e' l' d']. simpl in Hw'. subst h'.
  destruct (vmcp_process w) as [[p st]|].
  - unfold stop_trace, exits_within.
    destruct st; simpl;
      unfold wait, try_except, bind; simpl;
      try (destruct (term_delay env) as [d|]; simpl;
           [destruct (d <=? 3000)%N; simpl|]);
      rewrite <- ?app_assoc; reflexivity.
  - simpl. rewrite app_nil_r. reflexivity.
Qed.

(** What [cleanup_async] leaves behind, through the observers. *)
Lemma cleanup_async_facts env v :
  let after := cleanup_async env v in
  releases (events_of after) = stack_of v /\
  stack_of (world_of after) = [] /\
  forall p,
    vmcp_process v = Some p ->
    signals (events_of after) =
      match status p with
      | Stopped => []
      | _ => if exits_within env 3 then [SIGTERM] else [SIGTERM; SIGKILL]
      end /\
    vmcp_process (world_of after) = Some (mkPopen (pid p) Stopped).
Proof.
  cbv zeta. rewrite cleanup_async_run.
  unfold world_of, events_of. simpl.
  rewrite stack_of_stopped, drained_stack_of.
  split; [|split; [reflexivity|]].
  - autorewrite with trace.
    destruct (vmcp_process v) as [[p st]|]; simpl; [|apply app_nil_r].
    unfold stop_trace. destruct st, (exits_within env 3); apply app_nil_r.
  - intros p Hv. autorewrite with trace.
    rewrite vmcp_process_stopped, drained_vmcp_process, Hv.
    unfold teardown_trace, stop_trace.
    destruct (status p), (exits_within env 3); split; reflexivity.
Qed.

Lemma cleanup_run env w :
  cleanup env w =
    if loop_running w then (Ok tt, w, [])
    else (Ok tt,
          set_loop_running false
            (stopped (drained (stack_of w) (set_loop_running true w))),
          map Release (stack_of w) ++ teardown_trace env (vmcp_process w)).
Proof.
  unfold cleanup, asyncio_run, try_except, try_finally, bind, gets. simpl.
  destruct (loop_running w); simpl; [reflexivity|].
  rewrite cleanup_async_run. simpl. rewrite app_nil_r. reflexivity.
Qed.


(** C9. Stopping a running server: [terminate] comes first and sends
    SIGTERM, then [wait] with the three-second grace period; [kill] follows
    only when the server has not exited within that period, and a server
    that has is never sent SIGKILL.  Either way the server ends stopped. *)
Theorem stop_is_graceful_then_forced (env : Env) (w : World) (p : Popen) :
  vmcp_process w = Some p ->
  status p = Running ->
  let after := cleanup_async env w in
  process_events (events_of after) =
    (if exits_within env 3
     then [Terminate; Sent SIGTERM; Wait 3]
     else [Terminate; Sent SIGTERM; Wait 3; Kill; Sent SIGKILL]) /\
  (exits_within env 3 = true -> ~ In Kill (events_of after)) /\
  vmcp_process (world_of after) = Some (mkPopen (pid p) Stopped).
Proof.
  intros Hp Hst. cbv zeta. rewrite cleanup_async_run.
  unfold world_of, events_of. simpl.
  rewrite vmcp_process_stopped, drained_vmcp_process, Hp. simpl.
  rewrite Hst. simpl.
  split; [|split; [|reflexivity]].
  - autorewrite with trace. simpl.
    destruct (exits_within env 3); reflexivity.
  - intros Hx. rewrite Hx. intros Hin.
    apply in_app_or in Hin. destruct Hin as [Hin|Hin].
    + apply in_map_iff in Hin. destruct Hin as [r [Hr _]]. discriminate Hr.
    + simpl in Hin.
      repeat (destruct Hin as [Hin|Hin]; [discriminate Hin|]). exact Hin.
Qed.

(** ** Detach *)

Lemma detach_run env w p :
  vmcp_process w = Some p ->
  detach env w =
    (Ok tt, set_handlers SIG_DFL (drained (stack_of w) w),
     Print "[green]✓ Server will continue running[/green]"
       :: Print "[cyan]ℹ To stop later: kill <pid>[/cyan]"
       :: map Release (stack_of w)).
Proof.
  intros Hp. unfold detach, console_print, emit, bind, gets, modify.
  rewrite Hp, close_if_open. simpl. rewrite app_nil_r. reflexivity.
Qed.

(** C6. Detach, with a server handle in place: the exit stack is drained,
    every callback on it fires once, most recent first, and the stack is
    left empty, while the server handle is exactly what it was (a running
    server stays running): neither [terminate], [wait] nor [kill] is called
    on it and no signal is sent. *)
Theorem detach_leaves_server_running (env : Env) (w : World) (p : Popen) :
  vmcp_process w = Some p ->
  let after := detach env w in
  result_of after = Ok tt /\
  vmcp_process (world_of after) = Some p /\
  process_events (events_of after) = [] /\
  releases (events_of after) = stack_of w /\
  stack_of (world_of after) = [].
Proof.
  intros Hp. cbv zeta. rewrite (detach_run env w p Hp).
  unfold result_of, world_of, events_of. simpl.
  rewrite drained_vmcp_process.
  rewrite process_events_map_Release, releases_map_Release.
  repeat split; [exact Hp|].
  change (stack_of (drained (stack_of w) w) = []).
  apply drained_stack_of.
Qed.

(** ** Signals *)

Lemma signal_handler_run env w :
  signal_handler env w =
    if loop_running w then (Raise (SystemExit 0), w, [])
    else (Raise (SystemExit 0),
          set_loop_running false
            (stopped (drained (stack_of w) (set_loop_running true w))),
          map Release (stack_of w) ++ teardown_trace env (vmcp_process w)).
Proof.
  unfold signal_handler, sys_exit, raise, bind.
  rewrite cleanup_run.
  destruct (loop_running w); simpl; rewrite ?app_nil_r; reflexivity.
Qed.

(** While the event loop of [main] is running, the handler's [cleanup]
    cannot start a second loop: nothing is torn down and the interpreter
    exits with status 0. *)
Remark signal_inside_loop_skips_teardown env w :
  loop_running w = true ->
  signal_handler env w = (Raise (SystemExit 0), w, []).
Proof.
  intros Hl. rewrite signal_handler_run, Hl. reflexivity.
Qed.

(** ** Readiness *)

Lemma poll_not_ready env : forall attempts w,
  (forall i, In i attempts -> not_ready (health env i) = true) ->
  poll env attempts w =
    (Ok false, w, flat_map (fun _ => [Probe; Sleep]) attempts).
Proof.
  induction attempts as [|i rest IH]; intros w Hall; [reflexivity|].
  assert (Hi : not_ready (health env i) = true) by (apply Hall; now left).
  assert (Hrest : forall j, In j rest -> not_ready (health env j) = true)
    by (intros j Hj; apply Hall; now right).
  simpl. unfold bind at 1. simpl.
  destruct (health env i) as [code| |]; simpl in Hi; try discriminate Hi.
  - destruct (code =? 200)%Z; [discriminate Hi|].
    unfold bind at 1. simpl. rewrite (IH w Hrest). reflexivity.
  - unfold bind at 1. simpl. rewrite (IH w Hrest). reflexivity.
Qed.

Lemma poll_ready env : forall before i after w,
  (forall j, In j before -> not_ready (health env j) = true) ->
  health env i = Status 200 ->
  poll env (before ++ i :: after) w =
    (Ok true, w, flat_map (fun _ => [Probe; Sleep]) before ++ [Probe]).
Proof.
  induction before as [|j rest IH]; intros i after w Hall Hi.
  - simpl. unfold bind at 1. simpl. rewrite Hi. reflexivity.
  - assert (Hj : not_ready (health env j) = true) by (apply Hall; now left).
    assert (Hrest : forall k, In k rest -> not_ready (health env k) = true)
      by (intros k Hk; apply Hall; now right).
    simpl. unfold bind at 1. simpl.
    destruct (health env j) as [code| |]; simpl in Hj; try discriminate Hj.
    + destruct (code =? 200)%Z; [discriminate Hj|].
      unfold bind at 1. simpl. rewrite (IH i after w Hrest Hi). reflexivity.
    + unfold bind at 1. simpl. rewrite (IH i after w Hrest Hi). reflexivity.
Qed.

Lemma seq_split_at (n k : nat) :
  k < n -> seq 0 n = seq 0 k ++ k :: seq (S k) (n - S k).
Proof.
  intros Hk. replace n with (k + S (n - S k)) at 1 by lia.
  rewrite seq_app. reflexivity.
Qed.

Lemma wait_ready_timeout env n w :
  (forall i, i < n -> not_ready (health env i) = true) ->
  wait_ready env n w =
    (Raise (SystemExit 1), w,
     flat_map (fun _ => [Probe; Sleep]) (seq 0 n) ++
     [Print "[red]✗ Server failed to start[/red]"]).
Proof.
  intros Hnever. unfold wait_ready, bind.
  rewrite poll_not_ready; [|intros j Hj; apply Hnever; apply in_seq in Hj; lia].
  reflexivity.
Qed.

Lemma wait_ready_succeeds env n K w :
  K < n ->
  (forall i, i < K -> not_ready (health env i) = true) ->
  health env K = Status 200 ->
  wait_ready env n w =
    (Ok tt, w, flat_map (fun _ => [Probe; Sleep]) (seq 0 K) ++ [Probe]).
Proof.
  intros HK Hbefore Hready. unfold wait_ready, bind.
  rewrite (seq_split_at n K HK).
  rewrite poll_ready; [|intros j Hj; apply Hbefore; apply in_seq in Hj; lia
                       |exact Hready].
  simpl. rewrite app_nil_r. reflexivity.
Qed.

(** C4. The readiness loop with a budget of [max_attempts]: when the health
    endpoint is not ready on its first [K] queries and answers 200 on the
    next one, with [K < max_attempts], the loop succeeds after exactly
    [K + 1] queries; when it is never ready the loop queries it exactly
    [max_attempts] times and then exits with status 1.  The program's budget
    is 20. *)
Theorem readiness_bounded_retry (env : Env) (max_attempts : nat) (w : World) :
  (forall K,
     K < max_attempts ->
     (forall i, i < K -> not_ready (health env i) = true) ->
     health env K = Status 200 ->
     let r := wait_ready env max_attempts w in
     result_of r = Ok tt /\ world_of r = w /\ probes (events_of r) = K + 1) /\
  ((forall i, i < max_attempts -> not_ready (health env i) = true) ->
   let r := wait_ready env max_attempts w in
   result_of r = Raise (SystemExit 1) /\ world_of r = w /\
   probes (events_of r) = max_attempts) /\
  MAX_ATTEMPTS = 20.
Proof.
  split; [|split; [|reflexivity]].
  - intros K HK Hbefore Hready. cbv zeta.
    rewrite (wait_ready_succeeds env max_attempts K w HK Hbefore Hready).
    cbn [result_of world_of events_of fst snd].
    repeat split.
    rewrite probes_app, probes_attempts, length_seq. reflexivity.
  - intros Hnever. cbv zeta.
    rewrite (wait_ready_timeout env max_attempts w Hnever).
    cbn [result_of world_of events_of fst snd].
    repeat split.
    rewrite probes_app, probes_attempts, length_seq.
    match goal with |- _ + ?rest = _ => change rest with 0 end. lia.
Qed.

(** ** Tool calls and their replies *)

Lemma decoded_cases json_loads text :
  decoded json_loads text =
    match json_loads text with
    | Loaded value => Ok value
    | LoadsRaises JSONDecodeError _ => Ok (raw_output text)
    | LoadsRaises cls msg => Raise (Exc cls msg)
    end.
Proof.
  unfold decoded, parsed_result, try_except, loads.
  destruct (json_loads text) as [value|cls msg]; [reflexivity|].
  destruct cls; reflexivity.
Qed.

(** Decoding touches neither the globals nor the console. *)
Lemma parsed_result_run json_loads text w :
  parsed_result json_loads text w = (decoded json_loads text, w, []).
Proof.
  unfold decoded, parsed_result, try_except, loads.
  destruct (json_loads text) as [value|cls msg]; [reflexivity|].
  destruct cls; reflexivity.
Qed.

(** Whatever decoding raises is an [Exception]. *)
Lemma decoded_Exception json_loads text e :
  decoded json_loads text = Raise e -> is_Exception e = true.
Proof.
  rewrite decoded_cases.
  destruct (json_loads text) as [value|cls msg]; [discriminate|].
  destruct cls; intros H; try discriminate H; injection H as <-; reflexivity.
Qed.

Lemma display_blocks_first_text json_loads title : forall blocks text w,
  first_text blocks = Some text ->
  display_blocks json_loads title blocks w =
    match decoded json_loads text with
    | Ok value => (Ok tt, w, [Render title (truncate_long_fields value 150)])
    | Raise e => (Raise e, w, [])
    end.
Proof.
  induction blocks as [|b rest IH]; intros text w Hfirst; [discriminate Hfirst|].
  destruct b as [t|]; simpl in Hfirst.
  - injection Hfirst as ->. simpl. unfold bind.
    rewrite parsed_result_run.
    destruct (decoded json_loads text); reflexivity.
  - simpl. apply IH. exact Hfirst.
Qed.

Lemma display_first_text json_loads result title text w :
  first_text (content result) = Some text ->
  display_workflow_result json_loads result title w =
    match decoded json_loads text with
    | Ok value => (Ok tt, w, [Render title (truncate_long_fields value 150)])
    | Raise e => (Raise e, w, [])
    end.
Proof.
  intros Hfirst. unfold display_workflow_result.
  destruct (content result) as [|b rest] eqn:Hc; [discriminate Hfirst|].
  apply display_blocks_first_text. exact Hfirst.
Qed.

Lemma display_blocks_without_text json_loads title : forall blocks w,
  first_text blocks = None ->
  display_blocks json_loads title blocks w = (Ok tt, w, []).
Proof.
  induction blocks as [|b more IH]; intros w Hnone; [reflexivity|].
  destruct b as [t|]; simpl in Hnone; [discriminate Hnone|].
  simpl. apply IH. exact Hnone.
Qed.

Lemma display_without_text json_loads result title w :
  content result <> [] ->
  first_text (content result) = None ->
  display_workflow_result json_loads result title w = (Ok tt, w, []).
Proof.
  intros Hne Hnone. unfold display_workflow_result.
  destruct (content result) as [|b rest]; [contradiction|].
  apply display_blocks_without_text. exact Hnone.
Qed.

(** What displaying ends with depends on the first text block alone. *)
Lemma display_error_first_text json_loads blocks :
  display_error json_loads blocks =
    match first_text blocks with
    | Some text =>
        match decoded json_loads text with
        | Ok _ => None
        | Raise e => Some e
        end
    | None => None
    end.
Proof.
  unfold display_error.
  destruct (first_text blocks) as [text|] eqn:Hfirst.
  - rewrite (display_first_text json_loads (mkToolResult blocks false) ""
               text initial Hfirst).
    destruct (decoded json_loads text); reflexivity.
  - destruct blocks as [|b rest]; [reflexivity|].
    rewrite display_without_text; [reflexivity|discriminate|exact Hfirst].
Qed.

Lemma display_error_Exception json_loads blocks e :
  display_error json_loads blocks = Some e -> is_Exception e = true.
Proof.
  rewrite display_error_first_text.
  destruct (first_text blocks) as [text|]; [|discriminate].
  destruct (decoded json_loads text) as [value|e'] eqn:Hd; [discriminate|].
  intros H. injection H as <-. apply (decoded_Exception _ _ _ Hd).
Qed.

(** Displaying never touches the globals; it raises what decoding the first
    text block raises. *)
Lemma display_workflow_result_run json_loads result title w :
  display_workflow_result json_loads result title w =
    (match display_error json_loads (content result) with
     | None => Ok tt
     | Some e => Raise e
     end, w, rendered json_loads result title).
Proof.
  rewrite display_error_first_text. unfold rendered.
  destruct (first_text (content result)) as [text|] eqn:Hfirst.
  - rewrite !(display_first_text _ _ _ _ _ Hfirst).
    destruct (decoded json_loads text); reflexivity.
  - destruct (content result) as [|b rest] eqn:Hc.
    + unfold display_workflow_result. rewrite Hc. reflexivity.
    + rewrite !display_without_text; try reflexivity;
        rewrite Hc; try discriminate; exact Hfirst.
Qed.

Lemma rendered_is_display_only json_loads result title :
  releases (rendered json_loads result title) = [] /\
  process_events (rendered json_loads result title) = [].
Proof.
  unfold rendered.
  destruct (first_text (content result)) as [text|] eqn:Hfirst.
  - rewrite (display_first_text _ _ _ _ _ Hfirst).
    destruct (decoded json_loads text); split; reflexivity.
  - unfold display_workflow_result.
    destruct (content result) as [|b rest]; [split; reflexivity|].
    rewrite (display_blocks_without_text _ _ _ _ Hfirst). split; reflexivity.
Qed.



(** C8, amended. With no session object (the global is [None]) every tool
    call fails at once with the not-connected error, the world untouched
    and nothing sent.  A session object that has been closed is not
    recognised by the guard: [call_tool] is invoked on it. *)
Theorem tool_call_needs_session (env : Env) (w : World) (tool_name : string)
    (params : list (string * Json)) :
  (mcp_session w = None ->
   execute_composite_tool env tool_name params w = (Raise not_connected, w, [])) /\
  (forall s,
   mcp_session w = Some s -> closed s = true ->
   remote_calls (events_of (execute_composite_tool env tool_name params w)) =
     [CallTool tool_name params]).
Proof.
  split.
  - intros Hnone. unfold execute_composite_tool, bind, gets. rewrite Hnone.
    reflexivity.
  - intros s Hs Hclosed.
    unfold execute_composite_tool, bind, gets. rewrite Hs.
    unfold try_except, call_tool, bind, emit. rewrite Hclosed. reflexivity.
Qed.

(** C8, as stated, fails on a closed session: the global still holds the
    session object, the guard lets the call through and [call_tool] is
    issued; the error that comes back is the library's, not the
    not-connected error. *)
Lemma closed_session_is_still_called :
  session_inactive closed_world /\
  remote_calls
    (events_of (execute_composite_tool good_env "aggregate_docs" [] closed_world)) =
    [CallTool "aggregate_docs" []] /\
  ~ fails_fast good_env closed_world "aggregate_docs" [].
Proof.
  split; [|split].
  - right. exists (mkClientSession true true). split; reflexivity.
  - reflexivity.
  - intros [_ Hcalls]. vm_compute in Hcalls. discriminate Hcalls.
Qed.

(** The closed world is the one the detach branch leaves behind. *)
Remark closed_world_reached :
  world_of (detach good_env running_world) = closed_world.
Proof. reflexivity. Qed.

(** ** Prerequisites *)

(** C10. The prerequisite check reports every missing item, not only the
    first: each of the vmcp binary, the thv binary and the configuration
    file that is missing has its own line.  When anything is missing the
    check raises [SystemExit 1] without touching the globals, and the whole
    program exits with status 1 having started no subprocess and entered no
    resource, its globals still [None].  When all three are present the
    check returns normally after its one console line, the world
    unchanged. *)
Theorem prerequisites_aggregate (env : Env) (json_loads : string -> Loads)
    (w : World) :
  let r := check_prerequisites env w in
  (which_vmcp env = false ->
   In (Print "  [red]✗ vmcp not found in PATH. Run: task install-vmcp[/red]")
      (events_of r)) /\
  (which_thv env = false ->
   In (Print "  [red]✗ thv not found in PATH. Run: task install[/red]")
      (events_of r)) /\
  (config_exists env = false ->
   In (Print "  [red]✗ Configuration file not found: vmcp-config.yaml[/red]")
      (events_of r)) /\
  (all_present env = false ->
   result_of r = Raise (SystemExit 1) /\ world_of r = w /\
   let run := main env json_loads initial in
   exit_status (result_of run) = 1%Z /\
   acquisitions (events_of run) = [] /\
   vmcp_process (world_of run) = None /\
   mcp_session (world_of run) = None /\
   exit_stack (world_of run) = None) /\
  (all_present env = true ->
   r = (Ok tt, w, [Print "[green]✓ Prerequisites check passed[/green]"])).
Proof.
  destruct env as [vmcp thv config ? ? ? ? ? ? ? ? ? ? ? ?].
  unfold all_present. cbn [which_vmcp which_thv config_exists].
  destruct vmcp, thv, config; cbv zeta;
    (split; [|split; [|split; [|split]]]); intros H; try discriminate H;
    try (vm_compute; tauto);
    try (repeat split; reflexivity).
Qed.

(** ** Whole runs *)

(** Unfolds the program down to its steps and evaluates it as far as the
    environment is known. *)
Ltac start_main :=
  cbv zeta;
  unfold main, asyncio_run, async_main, step_start_server, connect,
    enter_async_context, initialize, step_demo_aggregate_docs,
    step_demo_analyze_repo, step_demo_investigate_image, step_demo,
    execute_composite_tool, call_tool;
  unfold bind, try_except, try_finally;
  cbn -[wait_ready cleanup_async detach display_workflow_result display_error
        rendered].

(** Evaluates further once a fact about the environment has been used. *)
Ltac step :=
  cbn -[seq cleanup_async detach display_workflow_result display_error
        rendered].

(** C1 at the readiness timeout.  Everything is installed and validates,
    the server is spawned, and the health endpoint is not ready on any of the
    20 attempts: [sys.exit(1)] inside [step_start_server] raises
    [SystemExit], which neither [except Exception] handler catches, so the
    program exits with status 1 while the server it spawned is still
    running; [terminate], [wait] and [kill] were never called. *)
Theorem readiness_timeout_orphans_server (env : Env)
    (json_loads : string -> Loads) :
  all_present env = true ->
  thv_list_ok env = true ->
  validate_ok env = true ->
  (forall i, i < 20 -> not_ready (health env i) = true) ->
  let run := main env json_loads initial in
  exit_status (result_of run) = 1%Z /\
  vmcp_process (world_of run) = Some (mkPopen (server_pid env) Running) /\
  process_events (events_of run) = [].
Proof.
  destruct env as
    [vmcp thv config thv_ok val_ok auto spid hl ent ini tr kr rf td hc].
  unfold all_present.
  cbn [which_vmcp which_thv config_exists thv_list_ok validate_ok health
       server_pid].
  intros Hall -> -> Hnever.
  destruct vmcp, thv, config; try discriminate Hall. clear Hall.
  destruct auto; start_main;
    match goal with
    | |- context [wait_ready ?e ?n ?v] =>
        rewrite (wait_ready_timeout e n v Hnever)
    end; cbn; repeat split.
Qed.

(** C2 on the code.  The server is up, the transport is entered and its
    release callback pushed, then the session cannot be established (its
    context fails to enter, or [initialize] raises): the handler of
    [step_start_server] prints and calls [sys.exit(1)], and the program
    exits with status 1 without a single release callback of the exit stack
    having run.  The transport's callback is still on the stack, and the
    server is still running.  A handshake that ends in [CancelledError]
    passes that handler as well as the two others and leaves [main]
    uncaught, with the same end state. *)
Theorem failed_handshake_leaks_transport (env : Env)
    (json_loads : string -> Loads) (K : nat) :
  all_present env = true ->
  thv_list_ok env = true ->
  validate_ok env = true ->
  K < 20 ->
  (forall i, i < K -> not_ready (health env i) = true) ->
  health env K = Status 200 ->
  enter_ok env Transport = true ->
  enter_ok env Session && initialize_ok env = false ->
  let run := main env json_loads initial in
  exit_status (result_of run) = 1%Z /\
  releases (events_of run) = [] /\
  In Transport (stack_of (world_of run)) /\
  vmcp_process (world_of run) = Some (mkPopen (server_pid env) Running) /\
  process_events (events_of run) = [].
Proof.
  destruct env as
    [vmcp thv config thv_ok val_ok auto spid hl ent ini tr kr rf td hc].
  unfold all_present.
  cbn [which_vmcp which_thv config_exists thv_list_ok validate_ok health
       server_pid enter_ok initialize_ok].
  intros Hall -> -> HK Hbefore Hready HT Hfail.
  destruct vmcp, thv, config; try discriminate Hall. clear Hall.
  destruct auto, hc; start_main;
    match goal with
    | |- context [wait_ready ?e ?n ?v] =>
        rewrite (wait_ready_succeeds e n K v HK Hbefore Hready)
    end;
    step; rewrite HT; step;
    destruct (ent Session); step; cbn in Hfail; subst; step;
    observe; cbn; repeat split; auto.
Qed.


(** The whole program on the detach path: everything succeeds, the three
    tools reply, their replies are displayed, and the operator answers yes.
    The program ends normally with the session and the transport released,
    the exit stack empty and the server still running, never having been
    asked to stop. *)
Remark operator_detach_run (env : Env) (json_loads : string -> Loads)
    (K : nat) (b1 b2 b3 : list ContentBlock) (e1 e2 e3 : option bool) :
  all_present env = true ->
  thv_list_ok env = true ->
  validate_ok env = true ->
  K < 20 ->
  (forall i, i < K -> not_ready (health env i) = true) ->
  health env K = Status 200 ->
  enter_ok env Transport = true ->
  enter_ok env Session = true ->
  initialize_ok env = true ->
  tool_reply env "aggregate_docs" = Reply b1 e1 ->
  tool_reply env "analyze_repository" = Reply b2 e2 ->
  tool_reply env "investigate_image" = Reply b3 e3 ->
  display_error json_loads b1 = None ->
  display_error json_loads b2 = None ->
  display_error json_loads b3 = None ->
  AUTO_CONTINUE env = false ->
  lower (keep_running env) = "y" ->
  let run := main env json_loads initial in
  exit_status (result_of run) = 0%Z /\
  releases (events_of run) = [Session; Transport] /\
  stack_of (world_of run) = [] /\
  vmcp_process (world_of run) = Some (mkPopen (server_pid env) Running) /\
  process_events (events_of run) = [].
Proof.
  destruct env as
    [vmcp thv config thv_ok val_ok auto spid hl ent ini tr kr rf td hc].
  unfold all_present.
  cbn [which_vmcp which_thv config_exists thv_list_ok validate_ok health
       server_pid enter_ok initialize_ok tool_reply AUTO_CONTINUE keep_running].
  intros Hall -> -> HK Hbefore Hready HT HS -> H1 H2 H3 Hd1 Hd2 Hd3 -> Hyes.
  destruct vmcp, thv, config; try discriminate Hall. clear Hall.
  start_main.
  match goal with
  | |- context [wait_ready ?e ?n ?v] =>
      rewrite (wait_ready_succeeds e n K v HK Hbefore Hready)
  end.
  step. rewrite HT. step. rewrite HS. step.
  rewrite H1. step. rewrite display_workflow_result_run. step.
  rewrite Hd1. step.
  rewrite H2. step. rewrite display_workflow_result_run. step.
  rewrite Hd2. step.
  rewrite H3. step. rewrite display_workflow_result_run. step.
  rewrite Hd3. step.
  rewrite Hyes. step.
  erewrite detach_run by reflexivity.
  cbn -[seq rendered].
  repeat first
    [ progress observe
    | rewrite (proj1 (rendered_is_display_only _ _ _))
    | rewrite (proj2 (rendered_is_display_only _ _ _)) ].
  repeat split.
Qed.

(** ** The theorems at concrete inputs *)

Lemma never_up_not_ready i : not_ready (never_up i) = true.
Proof. unfold never_up. destruct (i <? 5)%nat; reflexivity. Qed.

Lemma slow_start_not_ready i : i < 3 -> not_ready (slow_start i) = true.
Proof.
  intros Hi. unfold slow_start.
  destruct (Nat.ltb_spec i 3); [reflexivity|lia].
Qed.

Lemma stop_is_graceful_then_forced_witness :
  process_events (events_of (cleanup_async good_env running_world)) =
    [Terminate; Sent SIGTERM; Wait 3] /\
  process_events (events_of (cleanup_async stubborn_env running_world)) =
    [Terminate; Sent SIGTERM; Wait 3; Kill; Sent SIGKILL].
Proof.
  split.
  - apply (stop_is_graceful_then_forced good_env running_world
             (mkPopen 4242 Running)); reflexivity.
  - apply (stop_is_graceful_then_forced stubborn_env running_world
             (mkPopen 4242 Running)); reflexivity.
Defined.

Lemma detach_leaves_server_running_witness :
  vmcp_process (world_of (detach good_env running_world)) =
    Some (mkPopen 4242 Running) /\
  process_events (events_of (detach good_env running_world)) = [] /\
  releases (events_of (detach good_env running_world)) = [Session; Transport] /\
  stack_of (world_of (detach good_env running_world)) = [].
Proof.
  apply (detach_leaves_server_running good_env running_world
           (mkPopen 4242 Running)).
  reflexivity.
Defined.

Lemma readiness_bounded_retry_witness :
  probes (events_of (wait_ready good_env 20 initial)) = 4 /\
  result_of (wait_ready dead_env 20 initial) = Raise (SystemExit 1) /\
  probes (events_of (wait_ready dead_env 20 initial)) = 20.
Proof.
  split; [|split].
  - apply (proj1 (readiness_bounded_retry good_env 20 initial) 3).
    + lia.
    + intros i Hi. apply slow_start_not_ready. exact Hi.
    + reflexivity.
  - apply (proj1 (proj2 (readiness_bounded_retry dead_env 20 initial))).
    intros i _. apply never_up_not_ready.
  - apply (proj1 (proj2 (readiness_bounded_retry dead_env 20 initial))).
    intros i _. apply never_up_not_ready.
Defined.


Lemma tool_call_needs_session_witness :
  execute_composite_tool good_env "aggregate_docs" [] initial =
    (Raise not_connected, initial, []) /\
  remote_calls
    (events_of (execute_composite_tool good_env "aggregate_docs" [] closed_world)) =
    [CallTool "aggregate_docs" []].
Proof.
  split.
  - apply (tool_call_needs_session good_env initial "aggregate_docs" []).
    reflexivity.
  - apply (proj2 (tool_call_needs_session good_env closed_world
                    "aggregate_docs" []) (mkClientSession true true));
      reflexivity.
Defined.

Lemma prerequisites_aggregate_witness :
  In (Print "  [red]✗ vmcp not found in PATH. Run: task install-vmcp[/red]")
     (events_of (check_prerequisites bare_env initial)) /\
  In (Print "  [red]✗ Configuration file not found: vmcp-config.yaml[/red]")
     (events_of (check_prerequisites bare_env initial)) /\
  exit_status (result_of (main bare_env loads_literal initial)) = 1%Z /\
  result_of (check_prerequisites good_env initial) = Ok tt.
Proof.
  pose proof (prerequisites_aggregate bare_env loads_literal initial) as Hbare.
  pose proof (prerequisites_aggregate good_env loads_literal initial) as Hgood.
  cbv zeta in Hbare, Hgood.
  destruct Hbare as (Hvmcp & _ & Hconfig & Hexit & _).
  destruct Hgood as (_ & _ & _ & _ & Hpass).
  split; [|split; [|split]].
  - apply Hvmcp. reflexivity.
  - apply Hconfig. reflexivity.
  - apply (Hexit eq_refl).
  - rewrite (Hpass eq_refl). reflexivity.
Defined.

Lemma readiness_timeout_orphans_server_witness :
  exit_status (result_of (main dead_env loads_literal initial)) = 1%Z /\
  vmcp_process (world_of (main dead_env loads_literal initial)) =
    Some (mkPopen 4242 Running) /\
  process_events (events_of (main dead_env loads_literal initial)) = [].
Proof.
  apply (readiness_timeout_orphans_server dead_env loads_literal);
    try reflexivity.
  intros i _. apply never_up_not_ready.
Defined.

Lemma failed_handshake_leaks_transport_witness :
  exit_status (result_of (main bad_handshake_env loads_literal initial)) = 1%Z /\
  releases (events_of (main bad_handshake_env loads_literal initial)) = [] /\
  In Transport (stack_of (world_of (main bad_handshake_env loads_literal initial))) /\
  vmcp_process (world_of (main bad_handshake_env loads_literal initial)) =
    Some (mkPopen 4242 Running) /\
  process_events (events_of (main bad_handshake_env loads_literal initial)) = [].
Proof.
  apply (failed_handshake_leaks_transport bad_handshake_env loads_literal 3);
    try reflexivity.
  - lia.
  - intros i Hi. apply slow_start_not_ready. exact Hi.
Defined.

(** The demo from start to finish with the operator keeping the server. *)
Example good_run_detaches :
  let run := main good_env loads_literal initial in
  result_of run = Ok tt /\
  vmcp_process (world_of run) = Some (mkPopen 4242 Running) /\
  mcp_session (world_of run) = Some (mkClientSession true true) /\
  exit_stack (world_of run) = Some [] /\
  handlers (world_of run) = SIG_DFL /\
  releases (events_of run) = [Session; Transport] /\
  probes (events_of run) = 4.
Proof. vm_compute. repeat split. Qed.

(** ** Truncation *)

(** Induction on JSON documents, through their lists and dictionaries. *)
Lemma Json_induction (P : Json -> Prop) :
  P JNull ->
  (forall b, P (JBool b)) ->
  (forall n, P (JNum n)) ->
  (forall s, P (JStr s)) ->
  (forall items, Forall P items -> P (JList items)) ->
  (forall fields, Forall (fun kv => P (snd kv)) fields -> P (JDict fields)) ->
  forall data, P data.
Proof.
  intros HNull HBool HNum HStr HList HDict.
  fix IH 1. intros [ |b|n|s|items|fields].
  - exact HNull.
  - apply HBool.
  - apply HNum.
  - apply HStr.
  - apply HList. induction items as [|item rest IHrest].
    + constructor.
    + constructor; [apply IH|exact IHrest].
  - apply HDict. induction fields as [|[k v] rest IHrest].
    + constructor.
    + constructor; [apply IH|exact IHrest].
Qed.

Lemma length_append (a b : string) :
  String.length (a ++ b)%string = String.length a + String.length b.
Proof. induction a as [|c a IH]; simpl; [reflexivity|]. now rewrite IH. Qed.

Lemma length_prefix : forall (n : nat) (s : string),
  n <= String.length s -> String.length (substring 0 n s) = n.
Proof.
  induction n as [|n IH]; intros s Hn.
  - destruct s; reflexivity.
  - destruct s as [|c s]; simpl in *; [lia|].
    rewrite IH; [reflexivity|lia].
Qed.

Lemma prefix_of_append : forall (a b : string),
  substring 0 (String.length a) (a ++ b)%string = a.
Proof.
  induction a as [|c a IH]; intros b; simpl.
  - destruct b; reflexivity.
  - now rewrite IH.
Qed.

Lemma truncate_string (s : string) (n : nat) :
  truncate_long_fields (JStr s) n =
    if (n <? String.length s)%nat
    then JStr (substring 0 n s ++ TRUNCATED)%string
    else JStr s.
Proof. reflexivity. Qed.

(** X1. Truncating is idempotent: a document that has been truncated is
    left as it is by a second truncation with the same limit (the marker
    is appended once, not again). *)
Theorem truncate_idempotent (max_length : nat) (data : Json) :
  truncate_long_fields (truncate_long_fields data max_length) max_length =
    truncate_long_fields data max_length.
Proof.
  induction data as [ |b|n|s|items IH|fields IH] using Json_induction;
    try reflexivity.
  - rewrite truncate_string.
    destruct (max_length <? String.length s)%nat eqn:Hlong.
    + apply Nat.ltb_lt in Hlong.
      assert (Hlen : String.length (substring 0 max_length s) = max_length)
        by (apply length_prefix; lia).
      rewrite truncate_string, length_append, Hlen.
      replace (max_length <? max_length + String.length TRUNCATED)%nat
        with true by (symmetry; apply Nat.ltb_lt; simpl; lia).
      rewrite <- Hlen at 1. rewrite prefix_of_append. reflexivity.
    + rewrite truncate_string, Hlong. reflexivity.
  - simpl. f_equal. rewrite map_map.
    induction IH as [|item rest Hitem _ IHrest]; simpl; [reflexivity|].
    now rewrite Hitem, IHrest.
  - simpl. f_equal. rewrite map_map.
    induction IH as [|[k v] rest Hv _ IHrest]; simpl; [reflexivity|].
    simpl in Hv. now rewrite Hv, IHrest.
Qed.

Lemma truncated_within (max_length : nat) (data : Json) :
  strings_within (max_length + 15)
    (truncate_long_fields data max_length) = true.
Proof.
  induction data as [ |b|n|s|items IH|fields IH] using Json_induction;
    try reflexivity.
  - rewrite truncate_string.
    destruct (max_length <? String.length s)%nat eqn:Hlong; simpl.
    + apply Nat.ltb_lt in Hlong. apply Nat.leb_le.
      rewrite length_append, length_prefix by lia. simpl. lia.
    + apply Nat.ltb_ge in Hlong. apply Nat.leb_le. lia.
  - simpl. induction IH as [|item rest Hitem _ IHrest]; simpl; [reflexivity|].
    now rewrite Hitem, IHrest.
  - simpl. induction IH as [|[k v] rest Hv _ IHrest]; simpl; [reflexivity|].
    simpl in Hv. now rewrite Hv, IHrest.
Qed.

(** Truncation changes string values only: the shape of the document, its
    keys, numbers, booleans and nulls are what they were. *)
Lemma truncate_skeleton (max_length : nat) (data : Json) :
  skeleton (truncate_long_fields data max_length) = skeleton data.
Proof.
  induction data as [ |b|n|s|items IH|fields IH] using Json_induction;
    try reflexivity.
  - rewrite truncate_string.
    destruct (max_length <? String.length s)%nat; reflexivity.
  - simpl. f_equal. rewrite map_map.
    induction IH as [|item rest Hitem _ IHrest]; simpl; [reflexivity|].
    now rewrite Hitem, IHrest.
  - simpl. f_equal. rewrite map_map.
    induction IH as [|[k v] rest Hv _ IHrest]; simpl; [reflexivity|].
    simpl in Hv. now rewrite Hv, IHrest.
Qed.

(** Each string value is kept or cut, in place. *)
Lemma truncate_strings (max_length : nat) (data : Json) :
  Forall2 (cut_to max_length) (strings_of data)
    (strings_of (truncate_long_fields data max_length)).
Proof.
  induction data as [ |b|n|s|items IH|fields IH] using Json_induction;
    try (simpl; constructor).
  - rewrite truncate_string.
    destruct (max_length <? String.length s)%nat eqn:Hlong; simpl;
      (constructor; [|constructor]).
    + right. apply Nat.ltb_lt in Hlong. split; [exact Hlong|reflexivity].
    + left. apply Nat.ltb_ge in Hlong. split; [exact Hlong|reflexivity].
  - simpl. induction IH as [|item rest Hitem _ IHrest]; simpl; [constructor|].
    apply Forall2_app; assumption.
  - simpl. induction IH as [|[k v] rest Hv _ IHrest]; simpl; [constructor|].
    apply Forall2_app; assumption.
Qed.

(** X2. What truncation changes and what it leaves alone.  After
    truncation no string value is longer than the limit plus the fifteen
    characters of the marker, however deeply it is nested.  Nothing but
    string values is touched: with the string values blanked, the document
    is the one that went in, so its shape, its dictionary keys, numbers,
    booleans and nulls are left alone.  Each string value, in place, is kept
    when it fits the limit and is otherwise its first [max_length]
    characters followed by the marker, [max_length + 15] characters in
    all. *)
Theorem truncate_bounds_strings (max_length : nat) (data : Json) :
  strings_within (max_length + 15)
    (truncate_long_fields data max_length) = true /\
  skeleton (truncate_long_fields data max_length) = skeleton data /\
  Forall2 (cut_to max_length) (strings_of data)
    (strings_of (truncate_long_fields data max_length)) /\
  (forall s,
   max_length < String.length s ->
   exists kept,
     truncate_long_fields (JStr s) max_length = JStr (kept ++ TRUNCATED) /\
     String.length kept = max_length /\
     substring 0 max_length s = kept /\
     String.length (kept ++ TRUNCATED) = max_length + 15).
Proof.
  split; [apply truncated_within|].
  split; [apply truncate_skeleton|].
  split; [apply truncate_strings|].
  intros s Hlong. exists (substring 0 max_length s).
  rewrite truncate_string.
  replace (max_length <? String.length s)%nat with true
    by (symmetry; apply Nat.ltb_lt; exact Hlong).
  rewrite length_append, length_prefix by lia.
  repeat split.
Qed.

(** X3. A document whose string values all fit the limit comes back
    unchanged. *)
Theorem truncate_keeps_short_data (max_length : nat) (data : Json) :
  strings_within max_length data = true ->
  truncate_long_fields data max_length = data.
Proof.
  induction data as [ |b|n|s|items IH|fields IH] using Json_induction;
    intros Hfit; try reflexivity.
  - rewrite truncate_string. simpl in Hfit. apply Nat.leb_le in Hfit.
    replace (max_length <? String.length s)%nat with false
      by (symmetry; apply Nat.ltb_ge; lia).
    reflexivity.
  - simpl in *. f_equal.
    induction IH as [|item rest Hitem _ IHrest]; simpl; [reflexivity|].
    simpl in Hfit. apply andb_true_iff in Hfit. destruct Hfit as [H1 H2].
    now rewrite Hitem, IHrest.
  - simpl in *. f_equal.
    induction IH as [|[k v] rest Hv _ IHrest]; simpl; [reflexivity|].
    simpl in Hfit, Hv. apply andb_true_iff in Hfit. destruct Hfit as [H1 H2].
    now rewrite Hv, IHrest.
Qed.

(** ** More on the exit stack *)

Lemma aclose_run env w cbs :
  exit_stack w = Some cbs ->
  aclose env w =
    (match drain_pending env cbs None with
     | Some e => Raise e
     | None => Ok tt
     end, drained cbs w, map Release cbs).
Proof.
  intros Hw. unfold aclose, bind, gets. rewrite Hw, drain_run.
  destruct (drain_pending env cbs None); reflexivity.
Qed.

Lemma enter_all_run env : forall rs w base,
  exit_stack w = Some base ->
  (forall r, In r rs -> enter_ok env r = true) ->
  exists w',
    enter_all env rs w = (Ok tt, w', map Enter rs) /\
    exit_stack w' = Some (rev rs ++ base) /\
    vmcp_process w' = vmcp_process w /\
    mcp_session w' = mcp_session w.
Proof.
  induction rs as [|r rest IH]; intros w base Hw Hok.
  - exists w. repeat split. exact Hw.
  - assert (Hr : enter_ok env r = true) by (apply Hok; now left).
    destruct (IH (push r w) (r :: base)) as (w' & Hrun & Hstack & Hproc & Hsess).
    + unfold push. rewrite Hw. reflexivity.
    + intros r' Hr'. apply Hok. now right.
    + exists w'. unfold enter_all in *. simpl.
      unfold bind at 1. unfold enter_async_context at 1.
      unfold bind at 1, gets. rewrite Hw.
      unfold bind at 1, emit. rewrite Hr. unfold modify at 1.
      rewrite Hrun. simpl. rewrite <- app_assoc. simpl.
      repeat split; try assumption.
      * rewrite Hproc. unfold push. rewrite Hw. reflexivity.
      * rewrite Hsess. unfold push. rewrite Hw. reflexivity.
Qed.

Lemma entered_map_Enter rs : entered (map Enter rs) = rs.
Proof. induction rs as [|r rest IH]; simpl; [reflexivity|]. now rewrite IH. Qed.

(** X4. Release is last-in first-out.  When a sequence of context managers
    is entered on an exit stack, each successfully, closing the stack fires
    their callbacks in exactly the reverse of the order of entry (followed
    by whatever was on the stack before) and leaves the stack empty. *)
Theorem exit_stack_releases_in_reverse (env : Env) (rs base : list Resource)
    (w : World) :
  exit_stack w = Some base ->
  (forall r, In r rs -> enter_ok env r = true) ->
  let opened := enter_all env rs w in
  let closed := aclose env (world_of opened) in
  result_of opened = Ok tt /\
  entered (events_of opened) = rs /\
  releases (events_of closed) = rev rs ++ base /\
  stack_of (world_of closed) = [].
Proof.
  intros Hw Hok. cbv zeta.
  destruct (enter_all_run env rs w base Hw Hok) as (w' & Hrun & Hstack & _).
  rewrite Hrun. cbn [result_of world_of events_of fst snd].
  rewrite (aclose_run env w' _ Hstack).
  cbn [world_of events_of fst snd].
  rewrite releases_map_Release, entered_map_Enter.
  repeat split.
  unfold stack_of. rewrite (drained_exit_stack _ w' Hstack). reflexivity.
Qed.

Lemma drain_pending_None env cbs : forall pending,
  drain_pending env cbs pending = None <->
  pending = None /\ forall r, In r cbs -> release_fails env r = false.
Proof.
  induction cbs as [|r rest IH]; intros pending; simpl.
  - split; [intros ->; split; [reflexivity|intros r []]|intros [H _]; exact H].
  - rewrite IH. destruct (release_fails env r) eqn:Hr.
    + split; [intros [H _]; discriminate H|].
      intros [_ H]. specialize (H r (or_introl eq_refl)). congruence.
    + split.
      * intros [Hp H]. split; [exact Hp|].
        intros r' [<-|Hr']; [exact Hr|apply H; exact Hr'].
      * intros [Hp H]. split; [exact Hp|].
        intros r' Hr'. apply H. now right.
Qed.

(** X5. Release failures are swallowed and do not keep the server from
    being stopped.  When some callback on the exit stack raises, closing the
    stack still runs every callback and then raises an [Exception];
    [cleanup_async] swallows it: it returns normally, every callback has
    fired, most recent first, the stack is empty and the server is
    stopped. *)
Theorem release_failures_do_not_block_stop (env : Env) (w : World)
    (cbs : list Resource) (p : Popen) :
  exit_stack w = Some cbs ->
  vmcp_process w = Some p ->
  (exists r, In r cbs /\ release_fails env r = true) ->
  (exists e,
     result_of (aclose env w) = Raise e /\ is_Exception e = true /\
     releases (events_of (aclose env w)) = cbs) /\
  let after := cleanup_async env w in
  result_of after = Ok tt /\
  releases (events_of after) = cbs /\
  stack_of (world_of after) = [] /\
  vmcp_process (world_of after) = Some (mkPopen (pid p) Stopped).
Proof.
  intros Hw Hp [r [Hin Hfails]]. split.
  - rewrite (aclose_run env w cbs Hw).
    cbn [result_of events_of fst snd]. rewrite releases_map_Release.
    pose proof (drain_pending_None env cbs None) as Hnone.
    pose proof (drain_pending_Exception env cbs None I) as Hexc.
    destruct (drain_pending env cbs None) as [e|].
    + exists e. repeat split. exact Hexc.
    + destruct Hnone as [Hall _]. destruct (Hall eq_refl) as [_ Hok].
      rewrite (Hok r Hin) in Hfails. discriminate Hfails.
  - cbv zeta.
    destruct (cleanup_async_facts env w) as (Hr & Hs & Hserver).
    destruct (Hserver p Hp) as [_ Hproc].
    rewrite cleanup_async_run in *.
    cbn [result_of world_of events_of fst snd] in *.
    unfold stack_of in Hr at 2. rewrite Hw in Hr.
    repeat split; assumption.
Qed.

(** X6. What opening the session leaves on the exit stack.  [connect]
    always starts from a fresh stack.  If the transport cannot be entered
    nothing is pushed; if the session cannot be entered only the transport's
    callback is; if [initialize] raises, be it an [Exception] or
    [CancelledError], both are, and the global already holds the
    uninitialised session.  On success the stack holds the
    session's callback above the transport's, the session is initialised and
    open, and the server handle is as before. *)
Theorem connect_outcomes (env : Env) (w : World) :
  let opened := connect env w in
  (enter_ok env Transport = false ->
   result_of opened = Raise (Exc OtherException "connection failed") /\
   exit_stack (world_of opened) = Some [] /\
   mcp_session (world_of opened) = mcp_session w) /\
  (enter_ok env Transport = true -> enter_ok env Session = false ->
   result_of opened = Raise (Exc OtherException "connection failed") /\
   exit_stack (world_of opened) = Some [Transport] /\
   mcp_session (world_of opened) = mcp_session w) /\
  (enter_ok env Transport = true -> enter_ok env Session = true ->
   initialize_ok env = false ->
   result_of opened =
     Raise (if handshake_cancelled env then CancelledError
            else Exc OtherException "initialize failed") /\
   exit_stack (world_of opened) = Some [Session; Transport] /\
   mcp_session (world_of opened) = Some (mkClientSession false false)) /\
  (enter_ok env Transport = true -> enter_ok env Session = true ->
   initialize_ok env = true ->
   result_of opened = Ok tt /\
   exit_stack (world_of opened) = Some [Session; Transport] /\
   mcp_session (world_of opened) = Some (mkClientSession true false) /\
   vmcp_process (world_of opened) = vmcp_process w /\
   entered (events_of opened) = [Transport; Session]).
Proof.
  cbv zeta.
  unfold connect, enter_async_context, initialize, console_print, bind, gets,
    emit, modify, push.
  cbn [exit_stack set_exit_stack].
  repeat split; intros;
    repeat match goal with
      | H : _ = true |- _ => rewrite H; clear H
      | H : _ = false |- _ => rewrite H; clear H
      end; try destruct (handshake_cancelled env); reflexivity.
Qed.

(** ** More on tool calls *)

(** X7. A tool call that is answered: exactly one remote call is issued,
    the globals are untouched, the reply's content blocks are passed on as
    they are, and the error flag is the reply's, or [false] when the reply
    carries none. *)
Theorem tool_call_success_normalised (env : Env) (w : World)
    (sess : ClientSession) (tool_name : string)
    (params : list (string * Json)) (blocks : list ContentBlock)
    (flag : option bool) :
  mcp_session w = Some sess ->
  closed sess = false ->
  tool_reply env tool_name = Reply blocks flag ->
  exists result,
    execute_composite_tool env tool_name params w =
      (Ok result, w, [CallTool tool_name params]) /\
    content result = blocks /\
    (flag = None -> isError result = false) /\
    (forall b, flag = Some b -> isError result = b).
Proof.
  intros Hs Hopen Hreply.
  unfold execute_composite_tool, bind, gets. rewrite Hs.
  unfold try_except, call_tool, bind, emit. rewrite Hopen, Hreply.
  eexists. split; [reflexivity|]. simpl.
  split; [reflexivity|split].
  - intros ->. reflexivity.
  - intros b ->. reflexivity.
Qed.


Lemma display_blocks_ignores_rest json_loads title : forall before text rest w,
  first_text before = None ->
  display_blocks json_loads title (before ++ TextContent text :: rest) w =
    display_blocks json_loads title [TextContent text] w.
Proof.
  induction before as [|b more IH]; intros text rest w Hnone; [reflexivity|].
  destruct b as [t|]; simpl in Hnone; [discriminate Hnone|].
  simpl. apply IH. exact Hnone.
Qed.

Lemma display_blocks_renders_bounded json_loads title : forall blocks w ev,
  In ev (events_of (display_blocks json_loads title blocks w)) ->
  exists data, ev = Render title data /\ strings_within 165 data = true.
Proof.
  induction blocks as [|b rest IH]; intros w ev Hin; [destruct Hin|].
  destruct b as [text|]; simpl in Hin.
  - unfold bind in Hin. rewrite parsed_result_run in Hin.
    destruct (decoded json_loads text) as [value|e]; simpl in Hin;
      [|destruct Hin].
    destruct Hin as [<-|[]]. eexists. split; [reflexivity|].
    apply (truncated_within 150).
  - apply (IH w ev Hin).
Qed.


(** X9. The edges of displaying a result.  With no content blocks the one
    line "No result content" is printed.  With content blocks none of which
    is text nothing at all is shown, not even that line.  And only the first
    text block counts: what follows it, text or not, changes nothing. *)
Theorem display_edge_cases (json_loads : string -> Loads)
    (title : string) (flag : bool) (w : World) :
  display_workflow_result json_loads (mkToolResult [] flag) title w =
    (Ok tt, w, [Print "[yellow]No result content[/yellow]"]) /\
  (forall blocks,
   blocks <> [] -> first_text blocks = None ->
   display_workflow_result json_loads (mkToolResult blocks flag) title w =
     (Ok tt, w, [])) /\
  (forall before text rest,
   first_text before = None ->
   display_workflow_result json_loads
     (mkToolResult (before ++ TextContent text :: rest) flag) title w =
   display_workflow_result json_loads
     (mkToolResult [TextContent text] flag) title w).
Proof.
  split; [reflexivity|split].
  - intros blocks Hne Hnone. unfold display_workflow_result.
    cbn [content].
    destruct blocks as [|b more]; [contradiction|].
    apply display_blocks_without_text. exact Hnone.
  - intros before text rest Hnone. unfold display_workflow_result.
    cbn [content].
    destruct (before ++ TextContent text :: rest) as [|b more] eqn:Happ.
    + destruct before; discriminate Happ.
    + rewrite <- Happ. apply display_blocks_ignores_rest. exact Hnone.
Qed.

(** ** More on readiness *)

Lemma poll_crashes env : forall before i after w,
  (forall j, In j before -> not_ready (health env j) = true) ->
  health env i = ProbeOtherError ->
  poll env (before ++ i :: after) w =
    (Raise (Exc OtherException "health probe failed"), w,
     flat_map (fun _ => [Probe; Sleep]) before ++ [Probe]).
Proof.
  induction before as [|j rest IH]; intros i after w Hall Hi.
  - simpl. unfold bind at 1. simpl. rewrite Hi. reflexivity.
  - assert (Hj : not_ready (health env j) = true) by (apply Hall; now left).
    assert (Hrest : forall k, In k rest -> not_ready (health env k) = true)
      by (intros k Hk; apply Hall; now right).
    simpl. unfold bind at 1. simpl.
    destruct (health env j) as [code| |]; simpl in Hj; try discriminate Hj.
    + destruct (code =? 200)%Z; [discriminate Hj|].
      unfold bind at 1. simpl. rewrite (IH i after w Hrest Hi). reflexivity.
    + unfold bind at 1. simpl. rewrite (IH i after w Hrest Hi). reflexivity.
Qed.

Lemma wait_ready_crashes env n K w :
  K < n ->
  (forall i, i < K -> not_ready (health env i) = true) ->
  health env K = ProbeOtherError ->
  wait_ready env n w =
    (Raise (Exc OtherException "health probe failed"), w,
     flat_map (fun _ => [Probe; Sleep]) (seq 0 K) ++ [Probe]).
Proof.
  intros HK Hbefore Hcrash. unfold wait_ready, bind.
  rewrite (seq_split_at n K HK).
  rewrite poll_crashes; [|intros j Hj; apply Hbefore; apply in_seq in Hj; lia
                         |exact Hcrash].
  reflexivity.
Qed.

Lemma sleeps_app a b : sleeps (a ++ b) = sleeps a + sleeps b.
Proof. unfold sleeps. rewrite filter_app. apply length_app. Qed.

Lemma sleeps_attempts (attempts : list nat) :
  sleeps (flat_map (fun _ => [Probe; Sleep]) attempts) = length attempts.
Proof.
  induction attempts as [|i rest IH]; [reflexivity|].
  simpl. unfold sleeps in *. simpl. now rewrite IH.
Qed.

(** X10. The readiness loop swallows request errors only.  When a query
    fails with any other exception, after [K] unready answers, that
    exception leaves the loop at once: [K + 1] queries were made, no further
    one follows, and it is not turned into [sys.exit].  In the whole program
    it reaches the handler of [async_main], so, unlike a readiness timeout,
    it ends with the server terminated and exit status 1. *)
Theorem probe_crash_propagates (env : Env)
    (json_loads : string -> Loads) (max_attempts K : nat) (w : World) :
  K < max_attempts ->
  (forall i, i < K -> not_ready (health env i) = true) ->
  health env K = ProbeOtherError ->
  (let r := wait_ready env max_attempts w in
   result_of r = Raise (Exc OtherException "health probe failed") /\
   world_of r = w /\
   probes (events_of r) = K + 1) /\
  (K < 20 ->
   all_present env = true ->
   thv_list_ok env = true ->
   validate_ok env = true ->
   let run := main env json_loads initial in
   exit_status (result_of run) = 1%Z /\
   signals (events_of run) =
     (if exits_within env 3 then [SIGTERM] else [SIGTERM; SIGKILL]) /\
   vmcp_process (world_of run) = Some (mkPopen (server_pid env) Stopped)).
Proof.
  intros HK Hbefore Hcrash. split.
  - cbv zeta.
    rewrite (wait_ready_crashes env max_attempts K w HK Hbefore Hcrash).
    cbn [result_of world_of events_of fst snd]. repeat split.
    rewrite probes_app, probes_attempts, length_seq. reflexivity.
  - clear HK. revert Hbefore Hcrash.
    destruct env as
      [vmcp thv config thv_ok val_ok auto spid hl ent ini tr kr rf td hc].
    unfold all_present, exits_within.
    cbn [which_vmcp which_thv config_exists thv_list_ok validate_ok health
         server_pid term_delay].
    intros Hbefore Hcrash HK Hall -> ->.
    destruct vmcp, thv, config; try discriminate Hall. clear Hall.
    destruct auto; start_main;
      match goal with
      | |- context [wait_ready ?e ?n ?v] =>
          rewrite (wait_ready_crashes e n K v HK Hbefore Hcrash)
      end;
      step; rewrite cleanup_async_run; cbn -[seq];
      observe; unfold exits_within; cbn;
      (destruct td as [d|]; [destruct (d <=? 3000)%N|]); cbn; repeat split.
Qed.

(** X11. The pauses of the readiness loop.  Every unready answer is
    followed by one half-second sleep, the last one included: a success on
    query [K + 1] has slept [K] times and does not sleep again, and a
    timeout has slept [max_attempts] times before giving up. *)
Theorem readiness_sleeps (env : Env) (max_attempts : nat) (w : World) :
  (forall K,
     K < max_attempts ->
     (forall i, i < K -> not_ready (health env i) = true) ->
     health env K = Status 200 ->
     sleeps (events_of (wait_ready env max_attempts w)) = K) /\
  ((forall i, i < max_attempts -> not_ready (health env i) = true) ->
   sleeps (events_of (wait_ready env max_attempts w)) = max_attempts).
Proof.
  split.
  - intros K HK Hbefore Hready.
    rewrite (wait_ready_succeeds env max_attempts K w HK Hbefore Hready).
    cbn [events_of snd].
    rewrite sleeps_app, sleeps_attempts, length_seq.
    match goal with |- _ + ?rest = _ => change rest with 0 end. lia.
  - intros Hnever.
    rewrite (wait_ready_timeout env max_attempts w Hnever).
    cbn [events_of snd].
    rewrite sleeps_app, sleeps_attempts, length_seq.
    match goal with |- _ + ?rest = _ => change rest with 0 end. lia.
Qed.

(** ** The gates before the server *)

(** X12. Nothing is started behind a closed gate.  When a prerequisite is
    missing, or the listing of the backends fails, or the configuration does
    not validate, the program exits with status 1 without having spawned
    the server or entered any context manager; the three globals are still
    [None]. *)
Theorem nothing_spawned_unless_gates_pass (env : Env)
    (json_loads : string -> Loads) :
  gates_pass env = false ->
  let run := main env json_loads initial in
  exit_status (result_of run) = 1%Z /\
  spawns (events_of run) = [] /\
  entered (events_of run) = [] /\
  vmcp_process (world_of run) = None /\
  mcp_session (world_of run) = None /\
  exit_stack (world_of run) = None.
Proof.
  destruct env as
    [vmcp thv config thv_ok val_ok auto spid hl ent ini tr kr rf td hc].
  unfold gates_pass, all_present.
  cbn [which_vmcp which_thv config_exists thv_list_ok validate_ok].
  intros Hgate.
  destruct vmcp, thv, config, thv_ok, val_ok; try discriminate Hgate;
    destruct auto; start_main; cbn; repeat split.
Qed.

(** ** More on signals *)

(** X13. What the installed signal handler does.  Its [cleanup] never
    raises, and the handler always ends in [SystemExit 0].  While an event
    loop is running, which is the case for the whole of [async_main],
    [asyncio.run] refuses to start and the refusal is swallowed: nothing is
    released, the server is not touched, and the globals are as they were.
    With no loop running the handler drains the exit stack and stops the
    server before exiting. *)
Theorem signal_handler_outcomes (env : Env) (w : World) :
  let handled := signal_handler env w in
  result_of (cleanup env w) = Ok tt /\
  result_of handled = Raise (SystemExit 0) /\
  (loop_running w = true ->
   world_of handled = w /\ events_of handled = []) /\
  (loop_running w = false ->
   releases (events_of handled) = stack_of w /\
   stack_of (world_of handled) = [] /\
   loop_running (world_of handled) = false /\
   forall p,
     vmcp_process w = Some p ->
     vmcp_process (world_of handled) = Some (mkPopen (pid p) Stopped)).
Proof.
  cbv zeta. rewrite signal_handler_run, cleanup_run.
  destruct (loop_running w) eqn:Hl.
  - repeat split; intros; discriminate.
  - cbn [result_of world_of events_of fst snd].
    split; [reflexivity|split; [reflexivity|split; [intros; discriminate|]]].
    intros _.
    destruct (cleanup_async_facts env (set_loop_running true w))
      as (Hr & Hs & Hserver).
    rewrite cleanup_async_run in Hr, Hs, Hserver.
    cbn [world_of events_of fst snd] in Hr, Hs, Hserver.
    split; [exact Hr|split; [exact Hs|split]].
    + reflexivity.
    + intros p Hp. apply (Hserver p Hp).
Qed.

(** ** The operator's answer *)

Lemma lower_ascii_y (c : ascii) :
  lower_ascii c = "y"%char -> c = "y"%char \/ c = "Y"%char.
Proof.
  destruct c as [[] [] [] [] [] [] [] []]; vm_compute; intros H;
    try discriminate H; auto.
Qed.

(** [str.lower] gives "y" for exactly two answers. *)
Lemma lower_is_y (answer : string) :
  lower answer = "y" <-> answer = "y" \/ answer = "Y".
Proof.
  split.
  - destruct answer as [|c [|c' rest]]; simpl; intros H; try discriminate H.
    injection H as Hc. destruct (lower_ascii_y c Hc) as [-> | ->]; auto.
  - intros [-> | ->]; reflexivity.
Qed.

(** ** More whole runs *)

Lemma shutdown_events_app a b :
  shutdown_events (a ++ b) = shutdown_events a ++ shutdown_events b.
Proof. apply filter_app. Qed.

Lemma shutdown_events_attempts (attempts : list nat) :
  shutdown_events (flat_map (fun _ => [Probe; Sleep]) attempts) = [].
Proof. induction attempts as [|i rest IH]; [reflexivity|exact IH]. Qed.

Lemma shutdown_events_rendered json_loads result title :
  shutdown_events (rendered json_loads result title) = [].
Proof.
  unfold rendered.
  destruct (first_text (content result)) as [text|] eqn:Hfirst.
  - rewrite (display_first_text _ _ _ _ _ Hfirst).
    destruct (decoded json_loads text); reflexivity.
  - unfold display_workflow_result.
    destruct (content result) as [|b rest]; [reflexivity|].
    rewrite (display_blocks_without_text _ _ _ _ Hfirst). reflexivity.
Qed.

(** Pushes [shutdown_events] through a trace. *)
Ltac observe_shutdown :=
  repeat first
    [ rewrite shutdown_events_app
    | rewrite shutdown_events_attempts
    | rewrite shutdown_events_rendered
    | progress cbn [shutdown_events filter app is_shutdown_event] 
    | progress change (filter is_shutdown_event) with shutdown_events ].

(** X15. The whole program on the teardown path: everything succeeds, the
    three tools reply, their replies are displayed, and either
    AUTO_CONTINUE is set or the operator's answer is not a yes.  The program ends normally with exit status 0, and
    its teardown is, in this order: the session released, the transport
    released, the server asked to terminate and waited for three seconds,
    and killed only if it has not exited by then.  The server ends stopped
    and the exit stack empty. *)
Theorem normal_completion_tears_down (env : Env)
    (json_loads : string -> Loads) (K : nat)
    (b1 b2 b3 : list ContentBlock) (e1 e2 e3 : option bool) :
  gates_pass env = true ->
  K < 20 ->
  (forall i, i < K -> not_ready (health env i) = true) ->
  health env K = Status 200 ->
  enter_ok env Transport = true ->
  enter_ok env Session = true ->
  initialize_ok env = true ->
  tool_reply env "aggregate_docs" = Reply b1 e1 ->
  tool_reply env "analyze_repository" = Reply b2 e2 ->
  tool_reply env "investigate_image" = Reply b3 e3 ->
  display_error json_loads b1 = None ->
  display_error json_loads b2 = None ->
  display_error json_loads b3 = None ->
  AUTO_CONTINUE env = true \/ lower (keep_running env) <> "y" ->
  let run := main env json_loads initial in
  result_of run = Ok tt /\
  shutdown_events (events_of run) =
    [Release Session; Release Transport; Terminate; Sent SIGTERM; Wait 3] ++
    (if exits_within env 3 then [] else [Kill; Sent SIGKILL]) /\
  stack_of (world_of run) = [] /\
  vmcp_process (world_of run) = Some (mkPopen (server_pid env) Stopped).
Proof.
  destruct env as
    [vmcp thv config thv_ok val_ok auto spid hl ent ini tr kr rf td hc].
  unfold gates_pass, all_present, exits_within.
  cbn [which_vmcp which_thv config_exists thv_list_ok validate_ok health
       server_pid enter_ok initialize_ok tool_reply AUTO_CONTINUE keep_running
       term_delay].
  intros Hgate HK Hbefore Hready HT HS -> H1 H2 H3 Hd1 Hd2 Hd3 Hteardown.
  destruct vmcp, thv, config, thv_ok, val_ok; try discriminate Hgate.
  clear Hgate.
  assert (Hbranch : auto = true \/
                    (auto = false /\ (lower kr =? "y")%string = false)).
  { destruct auto; [now left|right]. split; [reflexivity|].
    apply String.eqb_neq. destruct Hteardown as [H|H]; [discriminate H|exact H]. }
  clear Hteardown.
  destruct Hbranch as [-> | [-> Hno]];
    start_main;
    match goal with
    | |- context [wait_ready ?e ?n ?v] =>
        rewrite (wait_ready_succeeds e n K v HK Hbefore Hready)
    end;
    step; rewrite HT; step; rewrite HS; step;
    rewrite H1; step; rewrite display_workflow_result_run; step;
    rewrite Hd1; step;
    rewrite H2; step; rewrite display_workflow_result_run; step;
    rewrite Hd2; step;
    rewrite H3; step; rewrite display_workflow_result_run; step;
    rewrite Hd3; step;
    rewrite ?Hno; step;
    rewrite cleanup_async_run; cbn -[seq rendered];
    observe_shutdown; unfold exits_within; cbn -[seq rendered];
    (destruct td as [d|]; [destruct (d <=? 3000)%N|]); cbn; repeat split.
Qed.

(** ** How a run can end *)

Lemma poll_cases env : forall attempts w,
  exists evs,
    poll env attempts w = (Ok true, w, evs) \/
    poll env attempts w = (Ok false, w, evs) \/
    poll env attempts w =
      (Raise (Exc OtherException "health probe failed"), w, evs).
Proof.
  induction attempts as [|i rest IH]; intros w.
  - exists []. right. left. reflexivity.
  - simpl. unfold bind, emit.
    destruct (IH w) as [evs [H|[H|H]]];
      (destruct (health env i) as [code| |];
       [destruct (code =? 200)%Z| |]); rewrite ?H; eexists;
      first [ left; reflexivity
            | right; left; reflexivity
            | right; right; reflexivity ].
Qed.

Lemma wait_ready_cases env n w :
  exists evs,
    wait_ready env n w = (Ok tt, w, evs) \/
    wait_ready env n w = (Raise (SystemExit 1), w, evs) \/
    wait_ready env n w =
      (Raise (Exc OtherException "health probe failed"), w, evs).
Proof.
  unfold wait_ready, bind.
  destruct (poll_cases env (seq 0 n) w) as [evs [H|[H|H]]]; rewrite H;
    eexists; [left|right; left|right; right]; reflexivity.
Qed.


Lemma outcome_bind {A B} (m : M A) (f : A -> M B) w :
  outcome (bind m f) w =
    match outcome m w with
    | (Ok a, w1) => outcome (f a) w1
    | (Raise e, w1) => (Raise e, w1)
    end.
Proof.
  unfold outcome, bind. destruct (m w) as [[[a|e] w1] t1]; simpl.
  - destruct (f a w1) as [[r w2] t2]. reflexivity.
  - reflexivity.
Qed.

Lemma outcome_try_except {A} (body : M A) catches handler w :
  outcome (try_except body catches handler) w =
    match outcome body w with
    | (Raise e, w1) =>
        if catches e then outcome (handler e) w1 else (Raise e, w1)
    | done => done
    end.
Proof.
  unfold outcome, try_except. destruct (body w) as [[[a|e] w1] t1]; simpl.
  - reflexivity.
  - destruct (catches e); [|reflexivity].
    destruct (handler e w1) as [[r w2] t2]. reflexivity.
Qed.

Lemma outcome_try_finally {A} (body : M A) fin w :
  outcome (try_finally body fin) w =
    match outcome body w with
    | (r, w1) =>
        match outcome fin w1 with
        | (Ok _, w2) => (r, w2)
        | (Raise e, w2) => (Raise e, w2)
        end
    end.
Proof.
  unfold outcome, try_finally. destruct (body w) as [[r w1] t1]; simpl.
  destruct (fin w1) as [[[a|e] w2] t2]; reflexivity.
Qed.

Lemma outcome_ret {A} (a : A) w : outcome (ret a) w = (Ok a, w).
Proof. reflexivity. Qed.

Lemma outcome_raise {A} e w : outcome (@raise A e) w = (Raise e, w).
Proof. reflexivity. Qed.

Lemma outcome_sys_exit {A} code w :
  outcome (@sys_exit A code) w = (Raise (SystemExit code), w).
Proof. reflexivity. Qed.

Lemma outcome_emit ev w : outcome (emit ev) w = (Ok tt, w).
Proof. reflexivity. Qed.

Lemma outcome_console_print msg w : outcome (console_print msg) w = (Ok tt, w).
Proof. reflexivity. Qed.

Lemma outcome_gets {A} (f : World -> A) w : outcome (gets f) w = (Ok (f w), w).
Proof. reflexivity. Qed.

Lemma outcome_modify f w : outcome (modify f) w = (Ok tt, f w).
Proof. reflexivity. Qed.

Lemma outcome_wait_for_user env w : outcome (wait_for_user env) w = (Ok tt, w).
Proof. unfold outcome, wait_for_user. destruct (AUTO_CONTINUE env); reflexivity. Qed.

Lemma outcome_check_prerequisites env w :
  outcome (check_prerequisites env) w =
    (if all_present env then Ok tt else Raise (SystemExit 1), w).
Proof.
  unfold outcome, check_prerequisites, all_present.
  destruct (which_vmcp env), (which_thv env), (config_exists env); reflexivity.
Qed.

Lemma outcome_step_introduction env w :
  outcome (step_introduction env) w = (Ok tt, w).
Proof. apply outcome_wait_for_user. Qed.

Lemma outcome_step_show_backends env w :
  outcome (step_show_backends env) w =
    (if which_thv env
     then if thv_list_ok env then Ok tt else Raise (SystemExit 1)
     else Raise (Exc OtherException "No such file or directory"), w).
Proof.
  unfold outcome, step_show_backends, wait_for_user.
  destruct (which_thv env), (thv_list_ok env), (AUTO_CONTINUE env); reflexivity.
Qed.

Lemma outcome_step_show_config env w :
  outcome (step_show_config env) w =
    (if config_exists env then Ok tt
     else Raise (Exc OtherException "No such file or directory"), w).
Proof.
  unfold outcome, step_show_config, wait_for_user.
  destruct (config_exists env), (AUTO_CONTINUE env); reflexivity.
Qed.

Lemma outcome_step_validate_config env w :
  outcome (step_validate_config env) w =
    (if which_vmcp env
     then if validate_ok env then Ok tt else Raise (SystemExit 1)
     else Raise (Exc OtherException "No such file or directory"), w).
Proof.
  unfold outcome, step_validate_config, wait_for_user.
  destruct (which_vmcp env), (validate_ok env), (AUTO_CONTINUE env); reflexivity.
Qed.

Lemma outcome_spawn_server env w :
  outcome (spawn_server env) w =
    if which_vmcp env
    then (Ok tt, set_vmcp_process (Some (mkPopen (server_pid env) Running)) w)
    else (Raise (Exc OtherException "No such file or directory: 'vmcp'"), w).
Proof. unfold outcome, spawn_server. destruct (which_vmcp env); reflexivity. Qed.

Lemma outcome_wait_ready env n w :
  exists r,
    outcome (wait_ready env n) w = (r, w) /\
    (r = Ok tt \/ r = Raise (SystemExit 1) \/
     r = Raise (Exc OtherException "health probe failed")).
Proof.
  unfold outcome.
  destruct (wait_ready_cases env n w) as [evs [H|[H|H]]]; rewrite H;
    eexists; (split; [reflexivity|]); auto.
Qed.

Lemma outcome_connect env w :
  outcome (connect env) w =
    if enter_ok env Transport then
      if enter_ok env Session then
        if initialize_ok env
        then (Ok tt,
              set_mcp_session (Some (mkClientSession true false))
                (set_exit_stack (Some [Session; Transport]) w))
        else (Raise (if handshake_cancelled env then CancelledError
                     else Exc OtherException "initialize failed"),
              set_mcp_session (Some (mkClientSession false false))
                (set_exit_stack (Some [Session; Transport]) w))
      else (Raise (Exc OtherException "connection failed"),
            set_exit_stack (Some [Transport]) w)
    else (Raise (Exc OtherException "connection failed"),
          set_exit_stack (Some []) w).
Proof.
  unfold outcome, connect, enter_async_context, initialize, console_print,
    bind, gets, emit, modify, push.
  cbn [exit_stack set_exit_stack].
  destruct (enter_ok env Transport), (enter_ok env Session),
    (initialize_ok env), (handshake_cancelled env); reflexivity.
Qed.

Lemma outcome_step_demo env json_loads tool_name title w :
  outcome (step_demo env json_loads tool_name title) w =
    match mcp_session w with
    | None => (Raise not_connected, w)
    | Some sess =>
        if closed sess
        then (Raise (Exc OtherException "session is closed"), w)
        else
          match tool_reply env tool_name with
          | Reply blocks _ =>
              (match display_error json_loads blocks with
               | None => Ok tt
               | Some e => Raise e
               end, w)
          | Fault msg => (Raise (Exc OtherException msg), w)
          | Cancelled => (Raise CancelledError, w)
          end
    end.
Proof.
  unfold step_demo, execute_composite_tool, call_tool.
  rewrite outcome_bind, outcome_wait_for_user.
  rewrite outcome_bind, outcome_console_print.
  rewrite outcome_bind, outcome_bind, outcome_gets.
  destruct (mcp_session w) as [sess|]; [|reflexivity].
  rewrite outcome_try_except, outcome_bind, outcome_bind, outcome_emit.
  destruct (closed sess); [reflexivity|].
  destruct (tool_reply env tool_name) as [blocks flag|msg|];
    [|reflexivity|reflexivity].
  cbn [outcome_ret]. rewrite outcome_ret, outcome_ret.
  rewrite outcome_bind, outcome_console_print, outcome_bind.
  unfold outcome at 1. rewrite display_workflow_result_run.
  cbn [fst content].
  destruct (display_error json_loads blocks); [reflexivity|].
  apply outcome_wait_for_user.
Qed.

Lemma outcome_cleanup_async env w :
  outcome (cleanup_async env) w = (Ok tt, stopped (drained (stack_of w) w)).
Proof. unfold outcome. rewrite cleanup_async_run. reflexivity. Qed.

Lemma outcome_detach env w p :
  vmcp_process w = Some p ->
  outcome (detach env) w =
    (Ok tt, set_handlers SIG_DFL (drained (stack_of w) w)).
Proof. intros Hp. unfold outcome. rewrite (detach_run env w p Hp). reflexivity. Qed.

Lemma outcome_cleanup env w :
  outcome (cleanup env) w =
    (Ok tt,
     if loop_running w then w
     else set_loop_running false
            (stopped (drained (stack_of w) (set_loop_running true w)))).
Proof. unfold outcome. rewrite cleanup_run. destruct (loop_running w); reflexivity. Qed.

Lemma outcome_asyncio_run {A} (m : M A) w :
  outcome (asyncio_run m) w =
    if loop_running w
    then (Raise (Exc RuntimeError
                   "asyncio.run() cannot be called from a running event loop"),
          w)
    else match outcome m (set_loop_running true w) with
         | (r, w1) => (r, set_loop_running false w1)
         end.
Proof.
  unfold asyncio_run. rewrite outcome_bind, outcome_gets.
  destruct (loop_running w); [reflexivity|].
  rewrite outcome_bind, outcome_modify, outcome_try_finally.
  destruct (outcome m (set_loop_running true w)) as [r w1]. reflexivity.
Qed.

Create Rewrite HintDb outcome.

#[local] Hint Rewrite
  @outcome_bind @outcome_try_except @outcome_try_finally @outcome_ret
  @outcome_raise @outcome_sys_exit outcome_emit outcome_console_print
  @outcome_gets outcome_modify outcome_wait_for_user
  outcome_check_prerequisites outcome_step_introduction
  outcome_step_show_backends outcome_step_show_config
  outcome_step_validate_config outcome_spawn_server outcome_connect
  outcome_step_demo outcome_cleanup_async outcome_cleanup
  @outcome_asyncio_run : outcome.

(** Reduces what is known about the world. *)
Ltac settle_world :=
  cbn [fst snd is_Exception is_class negb
       vmcp_process mcp_session exit_stack loop_running handlers
       set_vmcp_process set_mcp_session set_exit_stack set_loop_running
       set_handlers initial closed initialized stack_of].

(** Runs a program on outcomes, deciding the environment as it goes. *)
Ltac settle :=
  repeat first
    [ progress autorewrite with outcome
    | progress settle_world
    | match goal with
      | |- context [outcome (wait_ready ?e ?n) ?v] =>
          let r := fresh "r" in
          let Hr := fresh "Hr" in
          let Hcases := fresh "Hcases" in
          destruct (outcome_wait_ready e n v) as [r [Hr Hcases]];
          rewrite Hr; destruct Hcases as [->|[->| ->]]
      | |- context [outcome (detach ?e) ?v] =>
          erewrite (outcome_detach e v) by reflexivity
      | H : display_error _ _ = Some ?e |- context [is_Exception ?e] =>
          rewrite (display_error_Exception _ _ _ H)
      | |- context [if ?b then _ else _] => destruct b eqn:?
      | |- context [match tool_reply ?e ?n with _ => _ end] =>
          destruct (tool_reply e n) eqn:?
      | |- context [match display_error ?j ?b with _ => _ end] =>
          destruct (display_error j b) eqn:?
      end ].

(** Turns the boolean tests met on the way into propositions. *)
Ltac tidy :=
  repeat match goal with
    | H : negb _ = true |- _ => apply negb_true_iff in H
    | H : negb _ = false |- _ => apply negb_false_iff in H
    | H : (_ =? _)%string = true |- _ => apply String.eqb_eq in H
    | H : (_ =? _)%string = false |- _ => apply String.eqb_neq in H
    end.

(** The ways [main] can end, read off its outcome. *)
Lemma main_cases (env : Env) (json_loads : string -> Loads) :
  let run := main env json_loads initial in
  result_of run = Raise (SystemExit 1) \/
  (result_of run = Ok tt /\
   exit_stack (world_of run) = Some [] /\
   mcp_session (world_of run) = Some (mkClientSession true true) /\
   ((vmcp_process (world_of run) = Some (mkPopen (server_pid env) Stopped) /\
     handlers (world_of run) = CleanupHandler /\
     (AUTO_CONTINUE env = true \/ lower (keep_running env) <> "y")) \/
    (vmcp_process (world_of run) = Some (mkPopen (server_pid env) Running) /\
     handlers (world_of run) = SIG_DFL /\
     AUTO_CONTINUE env = false /\ lower (keep_running env) = "y"))) \/
  (result_of run = Raise CancelledError /\
   vmcp_process (world_of run) = Some (mkPopen (server_pid env) Running) /\
   exit_stack (world_of run) = Some [Session; Transport] /\
   handlers (world_of run) = CleanupHandler /\
   ((initialize_ok env = false /\ handshake_cancelled env = true) \/
    exists name, tool_reply env name = Cancelled)).
Proof.
  cbv zeta.
  pose (P := fun o : Result unit * World =>
    fst o = Raise (SystemExit 1) \/
    (fst o = Ok tt /\
     exit_stack (snd o) = Some [] /\
     mcp_session (snd o) = Some (mkClientSession true true) /\
     ((vmcp_process (snd o) = Some (mkPopen (server_pid env) Stopped) /\
       handlers (snd o) = CleanupHandler /\
       (AUTO_CONTINUE env = true \/ lower (keep_running env) <> "y")) \/
      (vmcp_process (snd o) = Some (mkPopen (server_pid env) Running) /\
       handlers (snd o) = SIG_DFL /\
       AUTO_CONTINUE env = false /\ lower (keep_running env) = "y"))) \/
    (fst o = Raise CancelledError /\
     vmcp_process (snd o) = Some (mkPopen (server_pid env) Running) /\
     exit_stack (snd o) = Some [Session; Transport] /\
     handlers (snd o) = CleanupHandler /\
     ((initialize_ok env = false /\ handshake_cancelled env = true) \/
      exists name, tool_reply env name = Cancelled))).
  change (P (outcome (main env json_loads) initial)).
  unfold main, async_main, step_start_server, step_demo_aggregate_docs,
    step_demo_analyze_repo, step_demo_investigate_image, step_summary.
  settle; subst P; tidy; cbn [is_Exception] in *; try discriminate;
    first
      [ left; reflexivity
      | right; left; cbn;
        split; [reflexivity|split; [reflexivity|split; [reflexivity|]]];
        first [ left; repeat split; auto; fail
              | right; repeat split; auto; fail ]
      | right; right; cbn;
        split; [reflexivity|split; [reflexivity|split; [reflexivity|]]];
        split; [reflexivity|];
        first [ left; split; (assumption || reflexivity)
              | right; eexists; eassumption ] ].
Qed.


(** X14. Which answers keep the server.  In an interactive run that
    returns normally the server is left running exactly when the operator
    answered "y" or "Y"; any other answer, the empty one and "yes" included,
    stops it. *)
Theorem only_y_detaches (env : Env) (json_loads : string -> Loads) :
  AUTO_CONTINUE env = false ->
  result_of (main env json_loads initial) = Ok tt ->
  (vmcp_process (world_of (main env json_loads initial)) =
     Some (mkPopen (server_pid env) Running) <->
   keep_running env = "y" \/ keep_running env = "Y") /\
  (vmcp_process (world_of (main env json_loads initial)) =
     Some (mkPopen (server_pid env) Stopped) <->
   ~ (keep_running env = "y" \/ keep_running env = "Y")).
Proof.
  intros Hauto Hok.
  pose proof (main_cases env json_loads) as H. cbv zeta in H.
  pose proof (lower_is_y (keep_running env)) as Hy.
  destruct H as [H | [(_ & _ & _ & [(Hp & _ & Hans) | (Hp & _ & _ & Hans)])
                       | (H & _)]];
    [rewrite Hok in H; discriminate H| | |rewrite Hok in H; discriminate H].
  - destruct Hans as [Hans | Hans]; [rewrite Hauto in Hans; discriminate Hans|].
    rewrite Hp. split; split.
    + intros H. discriminate H.
    + intros H. elim Hans. apply Hy. exact H.
    + intros _ H. apply Hans. apply Hy. exact H.
    + reflexivity.
  - rewrite Hp. split; split.
    + intros _. apply Hy. exact Hans.
    + reflexivity.
    + intros H. discriminate H.
    + intros H. elim H. apply Hy. exact Hans.
Qed.

Lemma nr_ret {A} (a : A) : never_reads (ret a).
Proof. intros w []. Qed.

Lemma nr_raise {A} e : never_reads (@raise A e).
Proof. intros w []. Qed.

Lemma nr_sys_exit {A} code : never_reads (@sys_exit A code).
Proof. intros w []. Qed.

Lemma nr_none_has_no A attr : never_reads (none_has_no A attr).
Proof. intros w []. Qed.

Lemma nr_gets {A} (f : World -> A) : never_reads (gets f).
Proof. intros w []. Qed.

Lemma nr_modify f : never_reads (modify f).
Proof. intros w []. Qed.

Lemma nr_emit ev : ev <> Input -> never_reads (emit ev).
Proof. intros Hev w [H|[]]. exact (Hev H). Qed.

Lemma nr_console_print msg : never_reads (console_print msg).
Proof. apply nr_emit. discriminate. Qed.

Lemma nr_bind {A B} (m : M A) (f : A -> M B) :
  never_reads m -> (forall a, never_reads (f a)) -> never_reads (bind m f).
Proof.
  intros Hm Hf w. unfold bind, events_of. specialize (Hm w).
  unfold events_of in Hm.
  destruct (m w) as [[[a|e] w1] t1]; simpl in *; [|exact Hm].
  specialize (Hf a w1). unfold events_of in Hf.
  destruct (f a w1) as [[r w2] t2]. simpl in *.
  intros Hin. apply in_app_or in Hin. tauto.
Qed.

Lemma nr_try_except {A} (body : M A) catches handler :
  never_reads body -> (forall e, never_reads (handler e)) ->
  never_reads (try_except body catches handler).
Proof.
  intros Hb Hh w. unfold try_except, events_of. specialize (Hb w).
  unfold events_of in Hb.
  destruct (body w) as [[[a|e] w1] t1]; simpl in *; [exact Hb|].
  destruct (catches e); [|exact Hb].
  specialize (Hh e w1). unfold events_of in Hh.
  destruct (handler e w1) as [[r w2] t2]. simpl in *.
  intros Hin. apply in_app_or in Hin. tauto.
Qed.

Lemma nr_try_finally {A} (body : M A) fin :
  never_reads body -> never_reads fin -> never_reads (try_finally body fin).
Proof.
  intros Hb Hf w. unfold try_finally, events_of. specialize (Hb w).
  unfold events_of in Hb.
  destruct (body w) as [[r w1] t1]. simpl in *.
  specialize (Hf w1). unfold events_of in Hf.
  destruct (fin w1) as [[[a|e] w2] t2]; simpl in *;
    intros Hin; apply in_app_or in Hin; tauto.
Qed.

Lemma nr_for_each {A} (xs : list A) (body : A -> M unit) :
  (forall x, never_reads (body x)) -> never_reads (for_each xs body).
Proof.
  intros Hbody. induction xs as [|x rest IH]; simpl.
  - apply nr_ret.
  - apply nr_bind; [apply Hbody|intros _; exact IH].
Qed.

Create HintDb quiet.

(** Walks through a computation, checking that none of its steps reads
    from the operator. *)
Ltac quiet :=
  repeat first
    [ assumption
    | solve [auto with quiet nocore]
    | apply nr_ret | apply nr_raise | apply nr_sys_exit | apply nr_none_has_no
    | apply nr_gets | apply nr_modify | apply nr_console_print
    | apply nr_emit; discriminate
    | match goal with
      | |- never_reads (bind _ _) => apply nr_bind; [|intros ?]
      | |- never_reads (try_except _ _ _) => apply nr_try_except; [|intros ?]
      | |- never_reads (try_finally _ _) => apply nr_try_finally
      | |- never_reads (for_each _ _) => apply nr_for_each; intros ?
      | |- never_reads (match ?x with _ => _ end) => destruct x
      end ].

Section Unattended.

Variable env : Env.
Variable json_loads : string -> Loads.
Hypothesis Hauto : AUTO_CONTINUE env = true.

Lemma nr_wait_for_user : never_reads (wait_for_user env).
Proof. unfold wait_for_user. rewrite Hauto. cbn [negb]. quiet. Qed.

Lemma nr_terminate : never_reads (terminate).
Proof. unfold terminate, set_status. quiet. Qed.

Lemma nr_wait t : never_reads (wait env t).
Proof. unfold wait, set_status. quiet. Qed.

Lemma nr_kill : never_reads kill.
Proof. unfold kill, set_status. quiet. Qed.

Lemma nr_drain cbs : forall pending, never_reads (drain env cbs pending).
Proof.
  induction cbs as [|r rest IH]; intros pending; simpl; quiet.
Qed.

#[local] Hint Resolve nr_wait_for_user nr_terminate nr_wait nr_kill nr_drain
  : quiet.

Lemma nr_aclose : never_reads (aclose env).
Proof. unfold aclose. quiet. Qed.

#[local] Hint Resolve nr_aclose : quiet.

Lemma nr_cleanup_async : never_reads (cleanup_async env).
Proof. unfold cleanup_async. quiet. Qed.

#[local] Hint Resolve nr_cleanup_async : quiet.

Lemma nr_cleanup : never_reads (cleanup env).
Proof. unfold cleanup, asyncio_run. quiet. Qed.

Lemma nr_check_prerequisites : never_reads (check_prerequisites env).
Proof. unfold check_prerequisites. quiet. Qed.

Lemma nr_step_show_backends : never_reads (step_show_backends env).
Proof. unfold step_show_backends, subprocess_run. quiet. Qed.

Lemma nr_step_show_config : never_reads (step_show_config env).
Proof. unfold step_show_config. quiet. Qed.

Lemma nr_step_validate_config : never_reads (step_validate_config env).
Proof. unfold step_validate_config, subprocess_run. quiet. Qed.

Lemma nr_poll attempts : never_reads (poll env attempts).
Proof. induction attempts as [|i rest IH]; simpl; quiet. Qed.

#[local] Hint Resolve nr_poll : quiet.

Lemma nr_step_start_server : never_reads (step_start_server env).
Proof.
  unfold step_start_server, spawn_server, wait_ready, connect,
    enter_async_context, initialize.
  quiet.
Qed.

Lemma nr_parsed_result text : never_reads (parsed_result json_loads text).
Proof. unfold parsed_result, loads. quiet. Qed.

#[local] Hint Resolve nr_parsed_result : quiet.

Lemma nr_display_blocks title blocks :
  never_reads (display_blocks json_loads title blocks).
Proof. induction blocks as [|b rest IH]; simpl; quiet. Qed.

#[local] Hint Resolve nr_display_blocks : quiet.

Lemma nr_step_demo tool_name title :
  never_reads (step_demo env json_loads tool_name title).
Proof.
  unfold step_demo, execute_composite_tool, call_tool,
    display_workflow_result.
  quiet.
Qed.

#[local] Hint Resolve nr_cleanup nr_check_prerequisites nr_step_show_backends
  nr_step_show_config nr_step_validate_config nr_step_start_server
  nr_step_demo : quiet.

(** X19. With AUTO_CONTINUE set the program never reads from the operator:
    from any starting world and in every environment, no run of [main]
    contains a read, neither the "press Enter" pauses nor the final
    question. *)
Theorem unattended_run_never_reads_input (w : World) :
  ~ In Input (events_of (main env json_loads w)).
Proof.
  revert w. change (never_reads (main env json_loads)).
  unfold main, asyncio_run, async_main, step_introduction,
    step_demo_aggregate_docs, step_demo_analyze_repo,
    step_demo_investigate_image, step_summary.
  rewrite Hauto. cbn [negb].
  quiet.
Qed.

End Unattended.

Lemma poll_bounded env : forall attempts w,
  world_of (poll env attempts w) = w /\
  probes (events_of (poll env attempts w)) <= length attempts /\
  sleeps (events_of (poll env attempts w)) <=
    probes (events_of (poll env attempts w)).
Proof.
  induction attempts as [|i rest IH]; intros w.
  - repeat split; apply Nat.le_refl.
  - specialize (IH w). simpl. unfold bind, emit.
    unfold probes, sleeps in *.
    destruct (health env i) as [code| |];
      [destruct (code =? 200)%Z| |];
      try (destruct (poll env rest w) as [[[a|e] w'] evs]);
      cbn [world_of events_of fst snd ret raise app filter is_probe is_sleep
           length] in *;
      destruct IH as (Hw & Hp & Hs);
      repeat split; try assumption; try reflexivity; lia.
Qed.

(** X17. The readiness loop is bounded whatever the health endpoint does:
    for every sequence of answers it makes at most [max_attempts] queries,
    never sleeps more often than it queries, and leaves the globals as they
    were. *)
Theorem readiness_is_bounded (env : Env) (max_attempts : nat) (w : World) :
  let r := wait_ready env max_attempts w in
  probes (events_of r) <= max_attempts /\
  sleeps (events_of r) <= probes (events_of r) /\
  world_of r = w.
Proof.
  cbv zeta.
  pose proof (poll_bounded env (seq 0 max_attempts) w) as Hpoll.
  rewrite length_seq in Hpoll.
  unfold wait_ready, bind, console_print, emit, sys_exit, raise.
  unfold probes, sleeps in *.
  destruct (poll env (seq 0 max_attempts) w) as [[[[]|e] w'] evs];
    cbn [world_of events_of fst snd ret] in *;
    destruct Hpoll as (Hw & Hp & Hs);
    rewrite ?filter_app, ?length_app, ?app_nil_r;
    cbn [filter is_probe is_sleep length];
    repeat split; try assumption; lia.
Qed.

(** ** A signal during the run *)

Lemma bind_ext {A B} (m : M A) (f g : A -> M B) :
  (forall a w, f a w = g a w) -> forall w, bind m f w = bind m g w.
Proof.
  intros Hfg w. unfold bind. destruct (m w) as [[[a|e] w1] t1]; [|reflexivity].
  rewrite Hfg. reflexivity.
Qed.

Lemma try_except_ext {A} (body body' : M A) catches handler :
  (forall w, body w = body' w) ->
  forall w, try_except body catches handler w =
            try_except body' catches handler w.
Proof. intros Hb w. unfold try_except. rewrite Hb. reflexivity. Qed.

Lemma asyncio_run_ext {A} (m m' : M A) :
  (forall w, m w = m' w) -> forall w, asyncio_run m w = asyncio_run m' w.
Proof.
  intros Hm w. unfold asyncio_run, bind, gets, try_finally.
  destruct (loop_running w); [reflexivity|]. simpl. rewrite Hm. reflexivity.
Qed.

Lemma bind_ret_tt (m : M unit) w : bind m (fun _ => ret tt) w = m w.
Proof.
  unfold bind, ret. destruct (m w) as [[[[]|e] w1] t1]; [|reflexivity].
  rewrite app_nil_r. reflexivity.
Qed.

(** The statements of [script], run in order, are the [try] block of
    [async_main]: [main] is [main_around] it. *)
Lemma script_is_the_try_block env json_loads w :
  main env json_loads w =
    main_around env
      (async_main_around env (in_order (script env json_loads))) w.
Proof.
  unfold main, main_around. apply bind_ext. intros _.
  apply try_except_ext. apply asyncio_run_ext.
  unfold async_main, async_main_around. apply try_except_ext.
  unfold in_order, script. cbn [for_each].
  repeat (apply bind_ext; intros _).
  intros w'. symmetry. apply bind_ret_tt.
Qed.

(** A signal after the first [k] statements, with the loop still running:
    the run ends where the signal found it. *)
Lemma main_signalled_run env json_loads k w t :
  in_order (firstn k (script env json_loads)) started = (Ok tt, w, t) ->
  loop_running w = true ->
  main_signalled env json_loads k initial =
    (Raise (SystemExit 0), set_loop_running false w, t).
Proof.
  intros Hbefore Hloop.
  unfold main_signalled, main_around, async_main_around, asyncio_run.
  unfold bind at 1. cbn [modify]. unfold try_except at 1.
  unfold bind at 1. cbn [gets loop_running set_handlers initial].
  unfold bind at 1. cbn [modify]. unfold try_finally.
  unfold try_except at 1. unfold bind at 1.
  change (set_loop_running true (set_handlers CleanupHandler initial))
    with started.
  rewrite Hbefore. unfold bind at 1.
  rewrite (signal_inside_loop_skips_teardown env w Hloop).
  cbn. rewrite !app_nil_r. reflexivity.
Qed.

(** What the first [k] statements leave, when they all return: the loop is
    still running, and once [step_start_server] has run (it is the sixth)
    the server is up and both callbacks are on the exit stack. *)
Lemma prefix_world env json_loads k :
  k <= 10 ->
  let o := outcome (in_order (firstn k (script env json_loads))) started in
  fst o = Ok tt ->
  loop_running (snd o) = true /\
  (6 <= k ->
   vmcp_process (snd o) = Some (mkPopen (server_pid env) Running) /\
   exit_stack (snd o) = Some [Session; Transport]).
Proof.
  intros Hk. cbv zeta.
  do 11 (destruct k as [|k];
         [ match goal with
           | |- fst (outcome (in_order (firstn ?n _)) _) = _ -> _ =>
               pose (P := fun o : Result unit * World =>
                 fst o = Ok tt ->
                 loop_running (snd o) = true /\
                 (6 <= n ->
                  vmcp_process (snd o) =
                    Some (mkPopen (server_pid env) Running) /\
                  exit_stack (snd o) = Some [Session; Transport]));
               change (P (outcome (in_order (firstn n (script env json_loads)))
                            started))
           end;
           unfold script, in_order, started; cbn [firstn for_each];
           unfold step_start_server, step_demo_aggregate_docs,
             step_demo_analyze_repo, step_demo_investigate_image, step_summary;
           settle; subst P; cbn [fst snd]; intros Hok; try discriminate Hok;
           (split; [reflexivity|intros Hsix; first [lia|split; reflexivity]])
         | ]).
  lia.
Qed.

(** *** What a computation never emits *)

Section NeverEmits.

Variable bad : Event -> bool.

Lemma ne_ret {A} (a : A) : never_emits bad (ret a).
Proof. intros w ev []. Qed.

Lemma ne_raise {A} e : never_emits bad (@raise A e).
Proof. intros w ev []. Qed.

Lemma ne_sys_exit {A} code : never_emits bad (@sys_exit A code).
Proof. intros w ev []. Qed.

Lemma ne_none_has_no A attr : never_emits bad (none_has_no A attr).
Proof. intros w ev []. Qed.

Lemma ne_gets {A} (f : World -> A) : never_emits bad (gets f).
Proof. intros w ev []. Qed.

Lemma ne_modify f : never_emits bad (modify f).
Proof. intros w ev []. Qed.

Lemma ne_emit ev : bad ev = false -> never_emits bad (emit ev).
Proof. intros Hev w ev' [<-|[]]. exact Hev. Qed.

Lemma ne_console_print msg :
  bad (Print msg) = false -> never_emits bad (console_print msg).
Proof. apply ne_emit. Qed.

Lemma ne_bind {A B} (m : M A) (f : A -> M B) :
  never_emits bad m -> (forall a, never_emits bad (f a)) ->
  never_emits bad (bind m f).
Proof.
  intros Hm Hf w ev. unfold bind, events_of. specialize (Hm w ev).
  unfold events_of in Hm.
  destruct (m w) as [[[a|e] w1] t1]; simpl in *; [|exact Hm].
  specialize (Hf a w1 ev). unfold events_of in Hf.
  destruct (f a w1) as [[r w2] t2]. simpl in *.
  intros Hin. apply in_app_or in Hin. tauto.
Qed.

Lemma ne_try_except {A} (body : M A) catches handler :
  never_emits bad body -> (forall e, never_emits bad (handler e)) ->
  never_emits bad (try_except body catches handler).
Proof.
  intros Hb Hh w ev. unfold try_except, events_of. specialize (Hb w ev).
  unfold events_of in Hb.
  destruct (body w) as [[[a|e] w1] t1]; simpl in *; [exact Hb|].
  destruct (catches e); [|exact Hb].
  specialize (Hh e w1 ev). unfold events_of in Hh.
  destruct (handler e w1) as [[r w2] t2]. simpl in *.
  intros Hin. apply in_app_or in Hin. tauto.
Qed.

Lemma ne_for_each {A} (xs : list A) (body : A -> M unit) :
  (forall x, In x xs -> never_emits bad (body x)) ->
  never_emits bad (for_each xs body).
Proof.
  induction xs as [|x rest IH]; intros Hbody; simpl.
  - apply ne_ret.
  - apply ne_bind; [apply Hbody; now left|intros _].
    apply IH. intros y Hy. apply Hbody. now right.
Qed.

(** None of the events of such a run is a bad one. *)
Lemma never_emits_filter {A} (m : M A) w :
  never_emits bad m -> filter bad (events_of (m w)) = [].
Proof.
  intros Hm. specialize (Hm w).
  induction (events_of (m w)) as [|ev rest IH]; [reflexivity|].
  simpl. rewrite (Hm ev (or_introl eq_refl)).
  apply IH. intros ev' Hin. apply Hm. now right.
Qed.

End NeverEmits.

Create HintDb silent.

(** Walks through a computation, checking that none of its steps emits a
    bad event. *)
Ltac silent :=
  repeat first
    [ assumption
    | solve [auto with silent nocore]
    | apply ne_ret | apply ne_raise | apply ne_sys_exit | apply ne_none_has_no
    | apply ne_gets | apply ne_modify
    | apply ne_console_print; reflexivity
    | apply ne_emit; reflexivity
    | match goal with
      | |- never_emits _ (bind _ _) => apply ne_bind; [|intros ?]
      | |- never_emits _ (try_except _ _ _) => apply ne_try_except; [|intros ?]
      | |- never_emits _ (match ?x with _ => _ end) => destruct x
      end ].

Lemma in_firstn {A} (x : A) : forall k l, In x (firstn k l) -> In x l.
Proof.
  induction k as [|k IH]; intros [|y l] Hin; simpl in Hin; try contradiction.
  destruct Hin as [<-|Hin]; [now left|right; apply IH; exact Hin].
Qed.

(** The statements before the last tear nothing down. *)
Section BeforeClosing.

Variable env : Env.
Variable json_loads : string -> Loads.

Lemma calm_wait_for_user : never_emits is_shutdown_event (wait_for_user env).
Proof. unfold wait_for_user. silent. Qed.

#[local] Hint Resolve calm_wait_for_user : silent.

Lemma calm_check_prerequisites :
  never_emits is_shutdown_event (check_prerequisites env).
Proof.
  unfold check_prerequisites.
  destruct (which_vmcp env), (which_thv env), (config_exists env);
    cbn [negb app for_each]; silent.
Qed.

Lemma calm_step_show_backends :
  never_emits is_shutdown_event (step_show_backends env).
Proof. unfold step_show_backends, subprocess_run. silent. Qed.

Lemma calm_step_show_config :
  never_emits is_shutdown_event (step_show_config env).
Proof. unfold step_show_config. silent. Qed.

Lemma calm_step_validate_config :
  never_emits is_shutdown_event (step_validate_config env).
Proof. unfold step_validate_config, subprocess_run. silent. Qed.

Lemma calm_poll attempts : never_emits is_shutdown_event (poll env attempts).
Proof. induction attempts as [|i rest IH]; simpl; silent. Qed.

#[local] Hint Resolve calm_poll : silent.

Lemma calm_step_start_server :
  never_emits is_shutdown_event (step_start_server env).
Proof.
  unfold step_start_server, spawn_server, wait_ready, connect,
    enter_async_context, initialize.
  silent.
Qed.

Lemma calm_parsed_result text :
  never_emits is_shutdown_event (parsed_result json_loads text).
Proof. unfold parsed_result, loads. silent. Qed.

#[local] Hint Resolve calm_parsed_result : silent.

Lemma calm_display_blocks title blocks :
  never_emits is_shutdown_event (display_blocks json_loads title blocks).
Proof. induction blocks as [|b rest IH]; simpl; silent. Qed.

#[local] Hint Resolve calm_display_blocks : silent.

Lemma calm_step_demo tool_name title :
  never_emits is_shutdown_event (step_demo env json_loads tool_name title).
Proof.
  unfold step_demo, execute_composite_tool, call_tool,
    display_workflow_result.
  silent.
Qed.

Lemma calm_before_closing k :
  k <= 10 ->
  never_emits is_shutdown_event (in_order (firstn k (script env json_loads))).
Proof.
  intros Hk. unfold in_order. apply ne_for_each. intros statement Hin.
  assert (Hten : In statement (firstn 10 (script env json_loads))).
  { replace k with (Nat.min k 10) in Hin by lia.
    rewrite <- firstn_firstn in Hin. apply (in_firstn _ _ _ Hin). }
  clear Hin. cbn [firstn script] in Hten.
  repeat (destruct Hten as [<-|Hten];
          [first [ apply calm_check_prerequisites
                 | apply calm_wait_for_user
                 | apply calm_step_show_backends
                 | apply calm_step_show_config
                 | apply calm_step_validate_config
                 | apply calm_step_start_server
                 | apply calm_step_demo
                 | apply ne_ret ]|]).
  destruct Hten.
Qed.

End BeforeClosing.

Lemma no_shutdown_events evs :
  shutdown_events evs = [] -> releases evs = [] /\ process_events evs = [].
Proof.
  induction evs as [|ev rest IH]; [split; reflexivity|].
  destruct ev; simpl; intros H; try discriminate H; apply IH; exact H.
Qed.

(** C3 on the code.  SIGINT or SIGTERM arrives while the run is under way:
    the first [k] statements of [async_main] have returned and the last
    one, which tears down or detaches, has not begun.  The handler's
    [cleanup] cannot start a second event loop, so it tears nothing down,
    and the [SystemExit] of its [sys.exit(0)] is caught by neither
    [except Exception]: the run ends there with status 0.  Nothing runs
    after the handler, the normal teardown included, so the events of the
    run are those of the [k] statements: no release callback has fired and
    [terminate], [wait] and [kill] were never called.  The globals are what
    the signal found, and once the server has been started (from the sixth
    statement on) it is still running, with both callbacks still on the exit
    stack: the server is stopped not once but never. *)
Theorem signal_during_run_skips_teardown (env : Env)
    (json_loads : string -> Loads) (k : nat) :
  k <= 10 ->
  let before := in_order (firstn k (script env json_loads)) started in
  result_of before = Ok tt ->
  let run := main_signalled env json_loads k initial in
  result_of run = Raise (SystemExit 0) /\
  events_of run = events_of before /\
  releases (events_of run) = [] /\
  process_events (events_of run) = [] /\
  world_of run = set_loop_running false (world_of before) /\
  (6 <= k ->
   vmcp_process (world_of run) = Some (mkPopen (server_pid env) Running) /\
   stack_of (world_of run) = [Session; Transport]).
Proof.
  intros Hk before Hok run. subst before run.
  pose proof (prefix_world env json_loads k Hk) as Hworld.
  pose proof (never_emits_filter is_shutdown_event _ started
                (calm_before_closing env json_loads k Hk)) as Hcalm.
  cbv zeta in Hworld. unfold outcome in Hworld.
  destruct (in_order (firstn k (script env json_loads)) started)
    as [[r w] t] eqn:Hrun.
  cbn [result_of world_of events_of fst snd] in *. subst r.
  destruct (Hworld eq_refl) as [Hloop Hup].
  rewrite (main_signalled_run env json_loads k w t Hrun Hloop).
  cbn [result_of world_of events_of fst snd].
  destruct (no_shutdown_events t Hcalm) as [Hreleases Hprocess].
  repeat split; try assumption.
  - apply (Hup H).
  - unfold stack_of. cbn [exit_stack set_loop_running].
    rewrite (proj2 (Hup H)). reflexivity.
Qed.


(** ** A reply that cannot be decoded *)

Lemma remote_calls_attempts (attempts : list nat) :
  remote_calls (flat_map (fun _ => [Probe; Sleep]) attempts) = [].
Proof. induction attempts as [|i rest IH]; [reflexivity|exact IH]. Qed.

(** A display that raises has put nothing on the console. *)
Lemma rendered_on_error json_loads result title e :
  display_error json_loads (content result) = Some e ->
  rendered json_loads result title = [].
Proof.
  rewrite display_error_first_text. unfold rendered.
  destruct (first_text (content result)) as [text|] eqn:Hfirst;
    [|discriminate].
  rewrite (display_first_text _ _ _ _ _ Hfirst).
  destruct (decoded json_loads text); [discriminate|reflexivity].
Qed.

(** X22. A reply the decoder gives up on ends the run, with teardown.  The
    first tool replies with a text for which [json.loads] raises something
    other than [JSONDecodeError]: the exception leaves
    [display_workflow_result] and the demo step and reaches the handler of
    [async_main], which releases the session and the transport, stops the
    server and exits with status 1, whatever the operator would have
    answered; the two other tools are never called. *)
Theorem undecoded_reply_tears_down (env : Env)
    (json_loads : string -> Loads) (K : nat) (blocks : list ContentBlock)
    (flag : option bool) (e : exn) :
  gates_pass env = true ->
  K < 20 ->
  (forall i, i < K -> not_ready (health env i) = true) ->
  health env K = Status 200 ->
  enter_ok env Transport = true ->
  enter_ok env Session = true ->
  initialize_ok env = true ->
  tool_reply env "aggregate_docs" = Reply blocks flag ->
  display_error json_loads blocks = Some e ->
  let run := main env json_loads initial in
  result_of run = Raise (SystemExit 1) /\
  remote_calls (events_of run) = [CallTool "aggregate_docs" []] /\
  releases (events_of run) = [Session; Transport] /\
  signals (events_of run) =
    (if exits_within env 3 then [SIGTERM] else [SIGTERM; SIGKILL]) /\
  vmcp_process (world_of run) = Some (mkPopen (server_pid env) Stopped).
Proof.
  intros Hgate HK Hbefore Hready HT HS Hinit Hreply Herror.
  pose proof (display_error_Exception _ _ _ Herror) as Hexc.
  revert Hgate Hbefore Hready HT HS Hinit Hreply.
  destruct env as
    [vmcp thv config thv_ok val_ok auto spid hl ent ini tr kr rf td hc].
  unfold gates_pass, all_present, exits_within.
  cbn [which_vmcp which_thv config_exists thv_list_ok validate_ok health
       server_pid enter_ok initialize_ok tool_reply term_delay].
  intros Hgate Hbefore Hready HT HS -> Hreply.
  destruct vmcp, thv, config, thv_ok, val_ok; try discriminate Hgate.
  clear Hgate.
  destruct auto; start_main;
    match goal with
    | |- context [wait_ready ?e ?n ?v] =>
        rewrite (wait_ready_succeeds e n K v HK Hbefore Hready)
    end;
    step; rewrite HT; step; rewrite HS; step; rewrite Hreply; step;
    rewrite display_workflow_result_run; step; rewrite Herror; step;
    rewrite Hexc; step;
    match goal with
    | |- context [rendered ?j ?r ?t] =>
        rewrite (rendered_on_error j r t e Herror)
    end;
    rewrite cleanup_async_run; cbn -[seq];
    unfold remote_calls; rewrite ?filter_app;
    change (filter is_call_tool) with remote_calls;
    rewrite ?remote_calls_attempts;
    observe; unfold exits_within; cbn;
    (destruct td as [d|]; [destruct (d <=? 3000)%N|]); cbn; repeat split.
Qed.

(** ** The further theorems at concrete inputs *)

Lemma truncate_bounds_strings_witness :
  exists kept,
    truncate_long_fields (JStr long_text) 150 = JStr (kept ++ TRUNCATED) /\
    String.length kept = 150 /\
    substring 0 150 long_text = kept /\
    String.length (kept ++ TRUNCATED) = 165.
Proof.
  apply (proj2 (proj2 (proj2 (truncate_bounds_strings 150 JNull))) long_text).
  vm_compute. lia.
Defined.

Lemma truncate_keeps_short_data_witness :
  truncate_long_fields
    (JDict [("status", JStr "ok"); ("items", JList [JNum 1; JStr "a"])]) 150 =
  JDict [("status", JStr "ok"); ("items", JList [JNum 1; JStr "a"])].
Proof. apply truncate_keeps_short_data. reflexivity. Defined.

Lemma exit_stack_releases_in_reverse_witness :
  let w := set_exit_stack (Some []) initial in
  let opened := enter_all good_env [Transport; Session] w in
  releases (events_of (aclose good_env (world_of opened))) =
    [Session; Transport] /\
  stack_of (world_of (aclose good_env (world_of opened))) = [].
Proof.
  pose proof (exit_stack_releases_in_reverse good_env [Transport; Session] []
                (set_exit_stack (Some []) initial) eq_refl) as H.
  cbv zeta in H. apply H. intros r _. reflexivity.
Defined.

Lemma release_failures_do_not_block_stop_witness :
  result_of (cleanup_async leaky_env running_world) = Ok tt /\
  releases (events_of (cleanup_async leaky_env running_world)) =
    [Session; Transport] /\
  stack_of (world_of (cleanup_async leaky_env running_world)) = [] /\
  vmcp_process (world_of (cleanup_async leaky_env running_world)) =
    Some (mkPopen 4242 Stopped).
Proof.
  apply (release_failures_do_not_block_stop leaky_env running_world
           [Session; Transport] (mkPopen 4242 Running) eq_refl eq_refl).
  exists Session. split; [left|]; reflexivity.
Defined.

Lemma connect_outcomes_witness :
  exit_stack (world_of (connect bad_handshake_env initial)) =
    Some [Session; Transport] /\
  result_of (connect good_env initial) = Ok tt.
Proof.
  pose proof (connect_outcomes bad_handshake_env initial) as Hbad.
  pose proof (connect_outcomes good_env initial) as Hgood.
  cbv zeta in Hbad, Hgood.
  destruct Hbad as (_ & _ & Hbad & _). destruct Hgood as (_ & _ & _ & Hgood).
  split.
  - apply (Hbad eq_refl eq_refl eq_refl).
  - apply (Hgood eq_refl eq_refl eq_refl).
Defined.

Lemma tool_call_success_normalised_witness :
  exists result,
    execute_composite_tool good_env "aggregate_docs" [] running_world =
      (Ok result, running_world, [CallTool "aggregate_docs" []]) /\
    content result = [OtherContent; TextContent "null"] /\
    isError result = false.
Proof.
  destruct (tool_call_success_normalised good_env running_world
              (mkClientSession true false) "aggregate_docs" []
              [OtherContent; TextContent "null"] None
              eq_refl eq_refl eq_refl) as (result & Hrun & Hcontent & Hflag & _).
  exists result. split; [exact Hrun|split; [exact Hcontent|]].
  apply Hflag. reflexivity.
Defined.


Lemma display_edge_cases_witness :
  display_workflow_result loads_literal
    (mkToolResult [OtherContent; OtherContent] false) "Report" initial =
    (Ok tt, initial, []) /\
  display_workflow_result loads_literal
    (mkToolResult [OtherContent; TextContent "true"; TextContent "null"] false)
    "Report" initial =
  display_workflow_result loads_literal
    (mkToolResult [TextContent "true"] false) "Report" initial.
Proof.
  pose proof (display_edge_cases loads_literal "Report" false initial) as H.
  destruct H as (_ & Hsilent & Hfirst). split.
  - apply Hsilent; [discriminate|reflexivity].
  - apply (Hfirst [OtherContent] "true" [TextContent "null"]). reflexivity.
Defined.


Lemma crash_on_fourth_not_ready i :
  i < 3 -> not_ready (crash_on_fourth i) = true.
Proof.
  intros Hi. unfold crash_on_fourth.
  destruct (Nat.ltb_spec i 3); [reflexivity|lia].
Qed.

Lemma probe_crash_propagates_witness :
  probes (events_of (wait_ready crashing_probe_env 20 initial)) = 4 /\
  exit_status (result_of (main crashing_probe_env loads_literal initial)) = 1%Z /\
  vmcp_process (world_of (main crashing_probe_env loads_literal initial)) =
    Some (mkPopen 4242 Stopped).
Proof.
  assert (H3 : 3 < 20) by lia.
  destruct (probe_crash_propagates crashing_probe_env loads_literal 20 3
              initial H3 crash_on_fourth_not_ready eq_refl) as [Hloop Hrun].
  cbv zeta in Hloop, Hrun.
  destruct Hloop as (_ & _ & Hprobes).
  destruct (Hrun H3 eq_refl eq_refl eq_refl) as (Hexit & _ & Hproc).
  split; [exact Hprobes|split; [exact Hexit|exact Hproc]].
Defined.

Lemma readiness_sleeps_witness :
  sleeps (events_of (wait_ready good_env 20 initial)) = 3 /\
  sleeps (events_of (wait_ready dead_env 20 initial)) = 20.
Proof.
  split.
  - apply (proj1 (readiness_sleeps good_env 20 initial) 3).
    + lia.
    + intros i Hi. apply slow_start_not_ready. exact Hi.
    + reflexivity.
  - apply (proj2 (readiness_sleeps dead_env 20 initial)).
    intros i _. apply never_up_not_ready.
Defined.

Lemma nothing_spawned_unless_gates_pass_witness :
  exit_status (result_of (main invalid_config_env loads_literal initial)) = 1%Z /\
  spawns (events_of (main invalid_config_env loads_literal initial)) = [] /\
  entered (events_of (main invalid_config_env loads_literal initial)) = [] /\
  vmcp_process (world_of (main invalid_config_env loads_literal initial)) = None /\
  mcp_session (world_of (main invalid_config_env loads_literal initial)) = None /\
  exit_stack (world_of (main invalid_config_env loads_literal initial)) = None.
Proof.
  apply (nothing_spawned_unless_gates_pass invalid_config_env loads_literal).
  reflexivity.
Defined.

Lemma signal_handler_outcomes_witness :
  world_of (signal_handler good_env running_world) = running_world /\
  events_of (signal_handler good_env running_world) = [] /\
  releases (events_of (signal_handler good_env
                         (set_loop_running false running_world))) =
    [Session; Transport].
Proof.
  pose proof (signal_handler_outcomes good_env running_world) as Hin.
  pose proof (signal_handler_outcomes good_env
                (set_loop_running false running_world)) as Hout.
  cbv zeta in Hin, Hout.
  destruct Hin as (_ & _ & Hin & _). destruct Hout as (_ & _ & _ & Hout).
  destruct (Hin eq_refl) as [Hworld Hevents].
  destruct (Hout eq_refl) as [Hreleases _].
  split; [exact Hworld|split; [exact Hevents|exact Hreleases]].
Defined.

Lemma only_y_detaches_witness :
  vmcp_process (world_of (main good_env loads_literal initial)) =
    Some (mkPopen 4242 Running).
Proof.
  apply (proj1 (only_y_detaches good_env loads_literal eq_refl eq_refl)).
  right. reflexivity.
Defined.

Lemma normal_completion_tears_down_witness :
  result_of (main unattended_env loads_literal initial) = Ok tt /\
  shutdown_events (events_of (main unattended_env loads_literal initial)) =
    [Release Session; Release Transport; Terminate; Sent SIGTERM; Wait 3;
     Kill; Sent SIGKILL] /\
  stack_of (world_of (main unattended_env loads_literal initial)) = [] /\
  vmcp_process (world_of (main unattended_env loads_literal initial)) =
    Some (mkPopen 4242 Stopped).
Proof.
  apply (normal_completion_tears_down unattended_env loads_literal 3
           [OtherContent; TextContent "null"]
           [OtherContent; TextContent "null"]
           [OtherContent; TextContent "null"] None None None);
    try reflexivity.
  - lia.
  - intros i Hi. apply slow_start_not_ready. exact Hi.
  - left. reflexivity.
Defined.

Lemma unattended_run_never_reads_input_witness :
  ~ In Input (events_of (main unattended_env loads_literal initial)).
Proof.
  apply (unattended_run_never_reads_input unattended_env loads_literal).
  reflexivity.
Defined.


Lemma operator_detach_run_witness :
  exit_status (result_of (main good_env loads_literal initial)) = 0%Z /\
  releases (events_of (main good_env loads_literal initial)) =
    [Session; Transport] /\
  stack_of (world_of (main good_env loads_literal initial)) = [] /\
  vmcp_process (world_of (main good_env loads_literal initial)) =
    Some (mkPopen 4242 Running) /\
  process_events (events_of (main good_env loads_literal initial)) = [].
Proof.
  apply (operator_detach_run good_env loads_literal 3
           [OtherContent; TextContent "null"]
           [OtherContent; TextContent "null"]
           [OtherContent; TextContent "null"] None None None);
    try reflexivity.
  - lia.
  - intros i Hi. apply slow_start_not_ready. exact Hi.
Defined.

Lemma signal_during_run_skips_teardown_witness :
  result_of (main_signalled good_env loads_literal 7 initial) =
    Raise (SystemExit 0) /\
  releases (events_of (main_signalled good_env loads_literal 7 initial)) = [] /\
  process_events (events_of (main_signalled good_env loads_literal 7 initial)) =
    [] /\
  vmcp_process (world_of (main_signalled good_env loads_literal 7 initial)) =
    Some (mkPopen 4242 Running) /\
  stack_of (world_of (main_signalled good_env loads_literal 7 initial)) =
    [Session; Transport].
Proof.
  assert (Hk : 7 <= 10) by lia.
  assert (Hsix : 6 <= 7) by lia.
  pose proof (signal_during_run_skips_teardown good_env loads_literal 7 Hk)
    as H.
  cbv zeta in H.
  destruct (H eq_refl) as (Hexit & _ & Hreleases & Hprocess & _ & Hup).
  destruct (Hup Hsix) as [Hserver Hstack].
  repeat split; assumption.
Defined.

Lemma undecoded_reply_tears_down_witness :
  result_of (main deep_reply_env loads_literal initial) =
    Raise (SystemExit 1) /\
  remote_calls (events_of (main deep_reply_env loads_literal initial)) =
    [CallTool "aggregate_docs" []] /\
  releases (events_of (main deep_reply_env loads_literal initial)) =
    [Session; Transport] /\
  signals (events_of (main deep_reply_env loads_literal initial)) =
    [SIGTERM] /\
  vmcp_process (world_of (main deep_reply_env loads_literal initial)) =
    Some (mkPopen 4242 Stopped).
Proof.
  apply (undecoded_reply_tears_down deep_reply_env loads_literal 3
           [TextContent deep_text] None
           (Exc RecursionError
              "maximum recursion depth exceeded while decoding a JSON array from a unicode string"));
    try reflexivity.
  - lia.
  - intros i Hi. apply slow_start_not_ready. exact Hi.
Defined.
